(** * newt cli: create-image and run

    A shallow embedding of the two command bodies of the newt command line
    ([createImageRunCmd] with its helper [parseKeyArgs], and [runRunCmd])
    together with the properties the specification states about them.

    The commands talk to a number of collaborators that live outside the two
    source files (target registry, builder, image producer, key loader,
    console).  Those are gathered in the record [Env] and every theorem is
    stated for an arbitrary [Env].  Each call to a collaborator is recorded
    in an event log, so that ordering and argument pass-through can be
    stated. *)

From Stdlib Require Import ZArith Ascii String List Bool Lia.
From stdpp Require Import base option strings gmap.

Local Open Scope string_scope.
Local Open Scope list_scope.
Local Open Scope Z_scope.

(** ** strconv.ParseUint, as the code calls it

    The Go standard library routine, restricted to an explicit base between
    2 and 36 (the code always passes 10) and an explicit bit size (the code
    passes 8).  All machine arithmetic is on [uint64]. *)

Module strconv.

Inductive NumError := ErrSyntax | ErrRange.

Definition maxUint64 : Z := 2 ^ 64 - 1.

Definition wrap64 (x : Z) : Z := x mod 2 ^ 64.

Definition byte_of (c : ascii) : Z := Z.of_N (N_of_ascii c).

(** [lower(c)] of the Go source: [c | ('x' - 'X')]. *)
Definition lower (c : Z) : Z := Z.lor c 32.

(** The [switch] in the digit loop: the digit value of one byte, or
    nothing when the byte is no digit at all. *)
Definition digit (c : Z) : option Z :=
  if (48 <=? c) && (c <=? 57) then Some (c - 48)
  else if (97 <=? lower c) && (lower c <=? 122) then Some (lower c - 97 + 10)
  else None.

Fixpoint loop (base cutoff maxVal : Z) (s : string) (n : Z) : NumError + Z :=
  match s with
  | EmptyString => inr n
  | String c s' =>
      match digit (byte_of c) with
      | None => inl ErrSyntax
      | Some d =>
          if d >=? base then inl ErrSyntax
          else if n >=? cutoff then inl ErrRange
          else
            let n' := wrap64 (n * base) in
            let n1 := wrap64 (n' + d) in
            if (n1 <? n') || (n1 >? maxVal) then inl ErrRange
            else loop base cutoff maxVal s' n1
      end
  end.

Definition ParseUint (s : string) (base : Z) (bitSize : Z) : NumError + Z :=
  match s with
  | EmptyString => inl ErrSyntax
  | _ =>
      let cutoff := maxUint64 / base + 1 in
      let maxVal := wrap64 (Z.shiftl 1 bitSize - 1) in
      loop base cutoff maxVal s 0
  end.

End strconv.

(** Reading a string as a decimal numeral, the way one does on paper: every
    character is one of 0..9 and there is at least one. *)

Definition decimalDigit (c : ascii) : option Z :=
  let b := strconv.byte_of c in
  if (48 <=? b) && (b <=? 57) then Some (b - 48) else None.

Fixpoint decimalFrom (s : string) (acc : Z) : option Z :=
  match s with
  | EmptyString => Some acc
  | String c s' =>
      match decimalDigit c with
      | Some d => decimalFrom s' (acc * 10 + d)
      | None => None
      end
  end.

Definition decimalValue (s : string) : option Z :=
  match s with
  | EmptyString => None
  | _ => decimalFrom s 0
  end.

(** ** Data model *)

(** [image.ImageVersion]: Major and Minor are [uint8], Rev is [uint16],
    BuildNum is [uint32]. *)
Record ImageVersion := mkVersion {
  Major : Z;
  Minor : Z;
  Rev : Z;
  BuildNum : Z
}.

(** What the code reads off [stat.ModTime()]; every accessor returns a Go
    [int]. *)
Record ModTime := mkModTime {
  Year : Z;
  Month : Z;
  Day : Z;
  Hour : Z;
  Minute : Z;
  Second : Z
}.

(** Integer conversions [uint8(x)], [uint16(x)], [uint32(x)]: the low bits
    of the two's complement representation. *)
Definition uint8 (x : Z) : Z := x mod 2 ^ 8.
Definition uint16 (x : Z) : Z := x mod 2 ^ 16.
Definition uint32 (x : Z) : Z := x mod 2 ^ 32.

(** Lines 132-136 of [createImageRunCmd]. Go's [%] truncates towards zero,
    which is [Z.rem]. *)
Definition timestampVersion (mt : ModTime) : ImageVersion :=
  {| Major := uint8 (Z.rem (Year mt) 1000);
     Minor := uint8 (Month mt);
     Rev := uint16 (Day mt);
     BuildNum := uint32 (Hour mt * 10000 + Minute mt * 100 + Second mt) |}.

(** The zero value of [image.ImageVersion]. *)
Definition zeroVersion : ImageVersion := mkVersion 0 0 0 0.

(** The package-level variables both commands read.  [extraJtagCmd] and
    [noGDB_flag] are declared in a sibling file of the package. *)
Record Flags := mkFlags {
  useV1 : bool;
  useV2 : bool;
  useLegacyTLV : bool;
  owSrcFilename : string;
  encKeyFilename : string;
  encKeyIndex : Z;
  hdrPad : Z;
  imagePad : Z;
  sections : string;
  extraJtagCmd : string;
  noGDB_flag : bool
}.

Definition set_useV2 (v : bool) (f : Flags) : Flags :=
  {| useV1 := useV1 f; useV2 := v; useLegacyTLV := useLegacyTLV f;
     owSrcFilename := owSrcFilename f; encKeyFilename := encKeyFilename f;
     encKeyIndex := encKeyIndex f; hdrPad := hdrPad f; imagePad := imagePad f;
     sections := sections f; extraJtagCmd := extraJtagCmd f;
     noGDB_flag := noGDB_flag f |}.

(** A Go [error]; [util.NewNewtError] builds one from a text. *)
Inductive error := NewNewtError (text : string).



Section Cli.

(** Types owned by the collaborators. *)
Context {Target Builder LocalPackage PrivSignKey : Type}.

(** The collaborators.  Each field is the answer the collaborator gives
    when called with those arguments; [inl]/[Some] carry the Go error. *)
Record Env := mkEnv {
  TryGetProject : option error;
  ResolveTarget : string -> option Target;
  NewTargetBuilder : Target -> error + Builder;
  TargetBuilderForTargetOrUnittest : string -> error + Builder;
  GetTestPkg : Builder -> option LocalPackage;
  SelfTestCreateExe : Builder -> option error;
  SelfTestDebug : Builder -> option error;
  Resolve : Builder -> error + gmap string string;
  ValueIsTrue : string -> bool;
  Scanf : option string;
  Build : Builder -> option error;
  Stat : Builder -> error + ModTime;
  ParseVersion : string -> error + ImageVersion;
  ReadPrivSignKeys : list string -> error + list PrivSignKey;
  ProduceAllV1 :
    Builder -> ImageVersion -> list PrivSignKey -> string -> Z -> Z -> Z ->
    string -> bool -> option error;
  ProduceAll :
    Builder -> ImageVersion -> list PrivSignKey -> string -> Z -> Z -> Z ->
    string -> bool -> string -> option error;
  Load : Builder -> string -> string -> option error;
  Debug : Builder -> string -> bool -> bool -> string -> option error
}.

(** One entry per call that leaves the two source files, with the
    arguments of the call (the builder, which every builder call shares,
    is left out). *)
Inductive Event :=
| EvTryGetProject
| EvResolveTarget (name : string)
| EvNewTargetBuilder
| EvTargetBuilderForTargetOrUnittest (name : string)
| EvInjectSetting (key value : string)
| EvSelfTestCreateExe
| EvSelfTestDebug
| EvResolve
| EvPrintln (line : string)
| EvScanf
| EvBuild
| EvStat
| EvParseVersion (versStr : string)
| EvReadPrivSignKeys (filenames : list string)
| EvProduceAllV1 (ver : ImageVersion) (keys : list PrivSignKey)
    (encKeyFilename : string) (encKeyIndex hdrPad imagePad : Z)
    (sections : string) (useLegacyTLV : bool)
| EvProduceAll (ver : ImageVersion) (keys : list PrivSignKey)
    (encKeyFilename : string) (encKeyIndex hdrPad imagePad : Z)
    (sections : string) (useLegacyTLV : bool) (owSrcFilename : string)
| EvLoad (extraJtagCmd imgFilename : string)
| EvDebug (extraJtagCmd : string) (reset noGDB : bool) (elfFilename : string).

(** *** The command monad

    A command threads the package variables and the event log, and may
    leave through [NewtUsage], which prints and terminates the process. *)

Record State := mkState {
  flags : Flags;
  log : list Event
}.

(** [Exited usage err]: the process was terminated by [NewtUsage]; [usage]
    tells whether a command was handed over for its usage text. *)
Inductive Res (A : Type) :=
| Done (a : A)
| Exited (usage : bool) (err : error).
Global Arguments Done {A} a.
Global Arguments Exited {A} usage err.

Definition M (A : Type) : Type := State -> Res A * State.

Definition ret {A} (a : A) : M A := fun st => (Done a, st).

Definition bind {A B} (m : M A) (k : A -> M B) : M B :=
  fun st =>
    match m st with
    | (Done a, st') => k a st'
    | (Exited u e, st') => (Exited u e, st')
    end.

(** The state once one more call has been recorded. *)
Definition logged (st : State) (e : Event) : State :=
  {| flags := flags st; log := log st ++ [e] |}.

Definition emit (e : Event) : M unit :=
  fun st => (Done tt, logged st e).

Definition getFlags : M Flags := fun st => (Done (flags st), st).

Definition setFlags (f : Flags -> Flags) : M unit :=
  fun st => (Done tt, {| flags := f (flags st); log := log st |}).

Definition NewtUsage {A} (cmd : bool) (err : error) : M A :=
  fun st => (Exited cmd err, st).

Definition when (c : bool) (m : M unit) : M unit :=
  if c then m else ret tt.

(** [if err != nil { NewtUsage(cmd, err) }] *)
Definition failOn (cmd : bool) (err : option error) : M unit :=
  match err with
  | Some e => NewtUsage cmd e
  | None => ret tt
  end.

End Cli.

Arguments Env : clear implicits.
Arguments Event : clear implicits.
Arguments State : clear implicits.
Arguments M : clear implicits.

Declare Scope cmd_scope.
Delimit Scope cmd_scope with cmd.
Notation "x <- m ;; k" := (bind m (fun x => k))
  (at level 100, m at next level, right associativity) : cmd_scope.
Notation "m ;; k" := (bind m (fun _ => k))
  (at level 100, right associativity) : cmd_scope.

(** ** The commands *)

Section Commands.

Context {Target Builder LocalPackage PrivSignKey : Type}.
Variable env : Env Target Builder LocalPackage PrivSignKey.

Local Open Scope cmd_scope.

Local Abbreviation Cmd := (M PrivSignKey).

(** [args[i]]; every use below is guarded by a length test. *)
Definition idx (args : list string) (i : nat) : string := nth i args "".

(** What [parseKeyArgs] hands back: keys, key ID, error. *)
Definition KeyArgs : Type := list PrivSignKey * Z * option error.

(** The branch on the number of arguments and on [useV1]: either the early
    return with the key ID error, or the key ID and the key file names. *)
Definition keyIdAndFilenames (fl : Flags) (args : list string)
  : error + Z * list string :=
  if (length args =? 1)%nat then inr (0, [idx args 0])
  else if useV1 fl then
    match strconv.ParseUint (idx args 1) 10 8 with
    | inl _ => inl (NewNewtError "Key ID must be between 0-255")
    | inr keyIdUint => inr (uint8 keyIdUint, firstn 1 args)
    end
  else inr (0, args).

Definition parseKeyArgs (args : list string) : Cmd KeyArgs :=
  if (length args =? 0)%nat then ret ([], 0, None)
  else
    fl <- getFlags ;;
    match keyIdAndFilenames fl args with
    | inl err => ret ([], 0, Some err)
    | inr (keyId, keyFilenames) =>
        emit (EvReadPrivSignKeys keyFilenames) ;;
        match ReadPrivSignKeys env keyFilenames with
        | inl err => ret ([], 0, Some err)
        | inr keys => ret (keys, keyId, None)
        end
    end.

(** [imgprod.ProduceAllV1] or [imgprod.ProduceAll], by [useV1]; the last
    argument is what the caller passes as overwrite source under the
    current format. *)
Definition produce (b : Builder) (ver : ImageVersion)
    (keys : list PrivSignKey) (owSrc : string) : Cmd unit :=
  fl <- getFlags ;;
  if useV1 fl then
    emit (EvProduceAllV1 ver keys (encKeyFilename fl) (encKeyIndex fl)
            (hdrPad fl) (imagePad fl) (sections fl) (useLegacyTLV fl)) ;;
    failOn false
      (ProduceAllV1 env b ver keys (encKeyFilename fl) (encKeyIndex fl)
         (hdrPad fl) (imagePad fl) (sections fl) (useLegacyTLV fl))
  else
    emit (EvProduceAll ver keys (encKeyFilename fl) (encKeyIndex fl)
            (hdrPad fl) (imagePad fl) (sections fl) (useLegacyTLV fl) owSrc) ;;
    failOn false
      (ProduceAll env b ver keys (encKeyFilename fl) (encKeyIndex fl)
         (hdrPad fl) (imagePad fl) (sections fl) (useLegacyTLV fl) owSrc).

(** What the image producer is called with, by format: the version, the
    keys and the package variables; [owSrc] is the overwrite source of
    the current format. *)
Definition produceCall (fl : Flags) (ver : ImageVersion)
    (keys : list PrivSignKey) (owSrc : string) : Event PrivSignKey :=
  if useV1 fl then
    EvProduceAllV1 ver keys (encKeyFilename fl) (encKeyIndex fl)
      (hdrPad fl) (imagePad fl) (sections fl) (useLegacyTLV fl)
  else
    EvProduceAll ver keys (encKeyFilename fl) (encKeyIndex fl)
      (hdrPad fl) (imagePad fl) (sections fl) (useLegacyTLV fl) owSrc.

(** Lines 86-92 of the image command, 40-45 of the run command. *)
Definition checkFormatFlags : Cmd unit :=
  fl <- getFlags ;;
  when (useV1 fl && useV2 fl)
    (NewtUsage true (NewNewtError "Either -1, or -2, but not both")) ;;
  when (negb (useV1 fl)) (setFlags (set_useV2 true)).

Definition createImageRunCmd (args : list string) : Cmd unit :=
  when (length args <? 2)%nat
    (NewtUsage true (NewNewtError "Must specify target and version")) ;;
  checkFormatFlags ;;
  emit EvTryGetProject ;;
  failOn false (TryGetProject env) ;;
  let targetName := idx args 0 in
  emit (EvResolveTarget targetName) ;;
  match ResolveTarget env targetName with
  | None =>
      NewtUsage true (NewNewtError ("Invalid target name: " +:+ targetName))
  | Some t =>
      verSel <-
        (if String.eqb (idx args 1) "timestamp" then ret (true, zeroVersion)
         else
           emit (EvParseVersion (idx args 1)) ;;
           match ParseVersion env (idx args 1) with
           | inl err => NewtUsage true err
           | inr v => ret (false, v)
           end) ;;
      let verAsTimestamp := fst verSel in
      emit EvNewTargetBuilder ;;
      match NewTargetBuilder env t with
      | inl err => NewtUsage false err
      | inr b =>
          parsed <- parseKeyArgs (skipn 2 args) ;;
          let keys := fst (fst parsed) in
          failOn true (snd parsed) ;;
          emit EvBuild ;;
          failOn false (Build env b) ;;
          ver <-
            (if verAsTimestamp then
               emit EvStat ;;
               match Stat env b with
               | inl err => NewtUsage false err
               | inr modTime => ret (timestampVersion modTime)
               end
             else ret (snd verSel)) ;;
          fl <- getFlags ;;
          produce b ver keys (owSrcFilename fl)
      end
  end.

(** Lines 64-86 of [runRunCmd]: the version string of the run command. *)
Definition runVerStr (b : Builder) (args : list string) : Cmd string :=
  if (1 <? length args)%nat then ret (idx args 1)
  else
    emit EvResolve ;;
    match Resolve env b with
    | inl err => NewtUsage false err
    | inr settings =>
        if negb (ValueIsTrue env (default "" (settings !! "BOOT_LOADER")))
           && negb (ValueIsTrue env (default "" (settings !! "BSP_SIMULATED")))
        then
          emit (EvPrintln "Enter image version(default 0):") ;;
          emit EvScanf ;;
          ret (default "0" (Scanf env))
        else ret ""
    end.

Definition runRunCmd (args : list string) : Cmd unit :=
  when (length args <? 1)%nat
    (NewtUsage true (NewNewtError "Must specify target")) ;;
  checkFormatFlags ;;
  emit EvTryGetProject ;;
  failOn false (TryGetProject env) ;;
  emit (EvTargetBuilderForTargetOrUnittest (idx args 0)) ;;
  match TargetBuilderForTargetOrUnittest env (idx args 0) with
  | inl err => NewtUsage true err
  | inr b =>
      match GetTestPkg env b with
      | Some _ =>
          emit (EvInjectSetting "TESTUTIL_SYSTEM_ASSERT" "1") ;;
          emit EvSelfTestCreateExe ;;
          failOn false (SelfTestCreateExe env b) ;;
          emit EvSelfTestDebug ;;
          failOn false (SelfTestDebug env b)
      | None =>
          verStr <- runVerStr b args ;;
          emit EvBuild ;;
          failOn false (Build env b) ;;
          (if (0 <? String.length verStr)%nat then
             emit (EvParseVersion verStr) ;;
             match ParseVersion env verStr with
             | inl err => NewtUsage true err
             | inr ver =>
                 keys <-
                   (if (2 <? length args)%nat then
                      parsed <- parseKeyArgs (skipn 2 args) ;;
                      failOn true (snd parsed) ;;
                      ret (fst (fst parsed))
                    else ret []) ;;
                 produce b ver keys ""
             end
           else ret tt) ;;
          fl <- getFlags ;;
          emit (EvLoad (extraJtagCmd fl) "") ;;
          failOn false (Load env b (extraJtagCmd fl) "") ;;
          emit (EvDebug (extraJtagCmd fl) true (noGDB_flag fl) "") ;;
          failOn false (Debug env b (extraJtagCmd fl) true (noGDB_flag fl) "")
      end
  end.

End Commands.

(** The cutoff [strconv.ParseUint] computes for base 10. *)
Definition cutoff10 : Z := strconv.maxUint64 / 10 + 1.

(** [s] is the decimal numeral of the key ID [n]. *)
Definition isKeyId (s : string) (n : Z) : Prop :=
  decimalValue s = Some n /\ 0 <= n <= 255.

(** ** Observing a command *)

Section Observe.

Context {PrivSignKey : Type}.

Local Abbreviation Ev := (Event PrivSignKey).

(** Run a command from the given package variables and an empty log. *)
Definition exec {A} (m : M PrivSignKey A) (fl : Flags)
  : Res A * State PrivSignKey :=
  m {| flags := fl; log := [] |}.

Definition outcome {A} (m : M PrivSignKey A) (fl : Flags) : Res A :=
  fst (exec m fl).

Definition trace {A} (m : M PrivSignKey A) (fl : Flags) : list Ev :=
  log (snd (exec m fl)).

Definition isKeyRead (e : Ev) : bool :=
  match e with EvReadPrivSignKeys _ => true | _ => false end.

Definition isBuild (e : Ev) : bool :=
  match e with EvBuild => true | _ => false end.

Definition isNewTargetBuilder (e : Ev) : bool :=
  match e with EvNewTargetBuilder => true | _ => false end.

Definition isStat (e : Ev) : bool :=
  match e with EvStat => true | _ => false end.

Definition isPrompt (e : Ev) : bool :=
  match e with EvPrintln _ | EvScanf => true | _ => false end.

Definition isProduce (e : Ev) : bool :=
  match e with EvProduceAllV1 _ _ _ _ _ _ _ _ | EvProduceAll _ _ _ _ _ _ _ _ _ => true
  | _ => false end.

(** Every [q] event of the log has a [p] event somewhere before it. *)
Fixpoint onlyAfter (p q : Ev -> bool) (l : list Ev) : bool :=
  match l with
  | [] => true
  | e :: l' =>
      if p e then true
      else negb (q e) && onlyAfter p q l'
  end.

(** No [q] event of the log has a [p] event somewhere before it. *)
Fixpoint neverAfter (p q : Ev -> bool) (l : list Ev) : bool :=
  match l with
  | [] => true
  | e :: l' =>
      if p e then forallb (fun e' => negb (q e')) l'
      else neverAfter p q l'
  end.

End Observe.

(** The version string the run command settles on, when it gets that far:
    the target resolves to a builder that is no unit test and, where the
    configuration has to be consulted, it resolves. *)
Definition resolvedVerStr {Target Builder LocalPackage PrivSignKey : Type}
    (env : Env Target Builder LocalPackage PrivSignKey) (fl : Flags)
    (args : list string) : option string :=
  match TargetBuilderForTargetOrUnittest env (idx args 0) with
  | inl _ => None
  | inr b =>
      match GetTestPkg env b with
      | Some _ => None
      | None =>
          match outcome (runVerStr env b args) fl with
          | Done verStr => Some verStr
          | Exited _ _ => None
          end
      end
  end.

(** ** A sample environment

    Concrete collaborators on which the commands can be run.  Targets,
    builders and keys are represented by their names. *)

Module Sample.

(** [strings.SplitN(s, ".", n)] for [n >= 1]. *)
Fixpoint splitDotN (n : nat) (s cur : string) : list string :=
  match s with
  | EmptyString => [cur]
  | String c s' =>
      if Ascii.eqb c "."%char && (1 <? n)%nat
      then cur :: splitDotN (n - 1) s' ""
      else splitDotN n s' (cur +:+ String c "")
  end.

Definition component (comps : list string) (i : nat) (bitSize : Z)
  : option Z :=
  if (i <? length comps)%nat then
    match strconv.ParseUint (idx comps i) 10 bitSize with
    | inr v => Some v
    | inl _ => None
    end
  else Some 0.

(** Stand-in for [image.ParseVersion] of the artifact library: a dotted
    version string major.minor.revision.buildnum with the trailing
    components optional. *)
Definition parseVersion (versStr : string) : error + ImageVersion :=
  let comps := splitDotN 4 versStr "" in
  match component comps 0 8, component comps 1 8,
        component comps 2 16, component comps 3 32 with
  | Some major, Some minor, Some rev, Some buildNum =>
      inr (mkVersion major minor rev buildNum)
  | _, _, _, _ => inl (NewNewtError ("invalid version string " +:+ versStr))
  end.

Definition knownTarget (name : string) : bool :=
  existsb (String.eqb name) ["t1"; "boot"; "sim"].

Definition settingsOf (b : string) : gmap string string :=
  if String.eqb b "boot" then {[ "BOOT_LOADER" := "1" ]}
  else if String.eqb b "sim" then {[ "BSP_SIMULATED" := "1" ]}
  else ∅.

Definition readKeys (filenames : list string) : error + list string :=
  if existsb (String.eqb "missing.pem") filenames
  then inl (NewNewtError "open missing.pem: no such file or directory")
  else inr filenames.

Definition env : Env string string unit string :=
  {| TryGetProject := None;
     ResolveTarget := fun name =>
       if knownTarget name then Some name else None;
     NewTargetBuilder := fun t => inr t;
     TargetBuilderForTargetOrUnittest := fun name =>
       if knownTarget name || String.eqb name "unittest" then inr name
       else inl (NewNewtError ("Could not resolve target or unittest " +:+ name));
     GetTestPkg := fun b => if String.eqb b "unittest" then Some tt else None;
     SelfTestCreateExe := fun _ => None;
     SelfTestDebug := fun _ => None;
     Resolve := fun b => inr (settingsOf b);
     ValueIsTrue := fun val => negb (String.eqb val "" || String.eqb val "0");
     Scanf := None;
     Build := fun _ => None;
     Stat := fun _ => inr (mkModTime 2024 3 7 14 5 9);
     ParseVersion := parseVersion;
     ReadPrivSignKeys := readKeys;
     ProduceAllV1 := fun _ _ _ _ _ _ _ _ _ => None;
     ProduceAll := fun _ _ _ _ _ _ _ _ _ _ => None;
     Load := fun _ _ _ => None;
     Debug := fun _ _ _ _ _ => None |}.

(** The package variables as the flag defaults leave them. *)
Definition defaults : Flags :=
  {| useV1 := false; useV2 := false; useLegacyTLV := false;
     owSrcFilename := ""; encKeyFilename := ""; encKeyIndex := -1;
     hdrPad := 0; imagePad := 0; sections := "";
     extraJtagCmd := ""; noGDB_flag := false |}.

(** [-1] on the command line. *)
Definition legacy : Flags :=
  {| useV1 := true; useV2 := false; useLegacyTLV := false;
     owSrcFilename := ""; encKeyFilename := ""; encKeyIndex := -1;
     hdrPad := 0; imagePad := 0; sections := "";
     extraJtagCmd := ""; noGDB_flag := false |}.

(** [-1 -2] on the command line. *)
Definition both : Flags :=
  {| useV1 := true; useV2 := true; useLegacyTLV := false;
     owSrcFilename := ""; encKeyFilename := ""; encKeyIndex := -1;
     hdrPad := 0; imagePad := 0; sections := "";
     extraJtagCmd := ""; noGDB_flag := false |}.


End Sample.

(** ** Stages of the two commands *)

Section Stages.

Context {PrivSignKey : Type}.

Local Abbreviation Ev := (Event PrivSignKey).

Definition isParseVersion (e : Ev) : bool :=
  match e with EvParseVersion _ => true | _ => false end.

Definition isResolve (e : Ev) : bool :=
  match e with EvResolve => true | _ => false end.

Definition isLoad (e : Ev) : bool :=
  match e with EvLoad _ _ => true | _ => false end.

Definition isDebug (e : Ev) : bool :=
  match e with EvDebug _ _ _ _ => true | _ => false end.

Definition isSelfTestCreateExe (e : Ev) : bool :=
  match e with EvSelfTestCreateExe => true | _ => false end.

Definition isSelfTestDebug (e : Ev) : bool :=
  match e with EvSelfTestDebug => true | _ => false end.

Definition isProduceAllV1 (e : Ev) : bool :=
  match e with EvProduceAllV1 _ _ _ _ _ _ _ _ => true | _ => false end.

Definition isProduceAll (e : Ev) : bool :=
  match e with EvProduceAll _ _ _ _ _ _ _ _ _ => true | _ => false end.

(** The keys a producer call was given. *)
Definition producerKeys (e : Ev) : option (list PrivSignKey) :=
  match e with
  | EvProduceAllV1 _ keys _ _ _ _ _ _ => Some keys
  | EvProduceAll _ keys _ _ _ _ _ _ _ => Some keys
  | _ => None
  end.

(** The position of a call in the text of [createImageRunCmd]; 8 stands
    for a call the command does not contain. *)
Definition createImageStage (e : Ev) : nat :=
  match e with
  | EvTryGetProject => 0
  | EvResolveTarget _ => 1
  | EvParseVersion _ => 2
  | EvNewTargetBuilder => 3
  | EvReadPrivSignKeys _ => 4
  | EvBuild => 5
  | EvStat => 6
  | EvProduceAllV1 _ _ _ _ _ _ _ _ => 7
  | EvProduceAll _ _ _ _ _ _ _ _ _ => 7
  | _ => 8
  end.

(** The position of a call in the text of [runRunCmd]; 14 stands for a
    call the command does not contain. *)
Definition runStage (e : Ev) : nat :=
  match e with
  | EvTryGetProject => 0
  | EvTargetBuilderForTargetOrUnittest _ => 1
  | EvInjectSetting _ _ => 2
  | EvSelfTestCreateExe => 3
  | EvSelfTestDebug => 4
  | EvResolve => 5
  | EvPrintln _ => 6
  | EvScanf => 7
  | EvBuild => 8
  | EvParseVersion _ => 9
  | EvReadPrivSignKeys _ => 10
  | EvProduceAllV1 _ _ _ _ _ _ _ _ => 11
  | EvProduceAll _ _ _ _ _ _ _ _ _ => 11
  | EvLoad _ _ => 12
  | EvDebug _ _ _ _ => 13
  | _ => 14
  end.

(** Strictly increasing. *)
Fixpoint increasing (l : list nat) : bool :=
  match l with
  | a :: (b :: _) as l' => (a <? b)%nat && increasing l'
  | _ => true
  end.

(** The last entry of the log satisfies [p]. *)
Definition endsWith (p : Ev -> bool) (l : list Ev) : bool :=
  match rev l with
  | e :: _ => p e
  | [] => false
  end.

End Stages.

(** The answer of the image producer to the call the commands make, by
    format. *)
Definition produceAnswer {Target Builder LocalPackage PrivSignKey : Type}
    (env : Env Target Builder LocalPackage PrivSignKey) (fl : Flags)
    (b : Builder) (ver : ImageVersion) (keys : list PrivSignKey)
    (owSrc : string) : option error :=
  if useV1 fl then
    ProduceAllV1 env b ver keys (encKeyFilename fl) (encKeyIndex fl)
      (hdrPad fl) (imagePad fl) (sections fl) (useLegacyTLV fl)
  else
    ProduceAll env b ver keys (encKeyFilename fl) (encKeyIndex fl)
      (hdrPad fl) (imagePad fl) (sections fl) (useLegacyTLV fl) owSrc.

(** ** Flag registration

    One entry per [PersistentFlags()] registration: the variable bound, the
    long name, the shorthand (empty for [BoolVar] and where the code passes
    an empty one) and the default. *)

Inductive FlagValue :=
| BoolFlag (b : bool)
| IntFlag (i : Z)
| StringFlag (s : string).

Record FlagSpec := mkFlag {
  flagVar : string;
  flagName : string;
  flagShorthand : string;
  flagDefault : FlagValue
}.

(** [AddImageCommands], lines 187-214. *)
Definition createImageFlags : list FlagSpec :=
  [mkFlag "newtutil.NewtForce" "force" "f" (BoolFlag false);
   mkFlag "image.UseRsaPss" "rsa-pss" "" (BoolFlag false);
   mkFlag "useV1" "1" "1" (BoolFlag false);
   mkFlag "useV2" "2" "2" (BoolFlag false);
   mkFlag "encKeyFilename" "encrypt" "e" (StringFlag "");
   mkFlag "encKeyIndex" "hw-stored-key" "H" (IntFlag (-1));
   mkFlag "hdrPad" "pad-header" "p" (IntFlag 0);
   mkFlag "imagePad" "pad-image" "i" (IntFlag 0);
   mkFlag "sections" "sections" "S" (StringFlag "");
   mkFlag "useLegacyTLV" "legacy-tlvs" "L" (BoolFlag false);
   mkFlag "owSrcFilename" "overwrite-src" "W" (StringFlag "")].

(** [AddRunCommands], lines 148-172. *)
Definition runFlags : list FlagSpec :=
  [mkFlag "extraJtagCmd" "extrajtagcmd" "" (StringFlag "");
   mkFlag "noGDB_flag" "noGDB" "n" (BoolFlag false);
   mkFlag "newtutil.NewtForce" "force" "f" (BoolFlag false);
   mkFlag "image.UseRsaPss" "rsa-pss" "" (BoolFlag false);
   mkFlag "useV1" "1" "1" (BoolFlag false);
   mkFlag "useV2" "2" "2" (BoolFlag false);
   mkFlag "encKeyFilename" "encrypt" "e" (StringFlag "");
   mkFlag "encKeyIndex" "hw-stored-key" "H" (IntFlag (-1));
   mkFlag "hdrPad" "pad-header" "p" (IntFlag 0);
   mkFlag "imagePad" "pad-image" "i" (IntFlag 0);
   mkFlag "sections" "sections" "S" (StringFlag "")].

(** The registration of a name in a command, if any. *)
Definition findFlag (name : string) (specs : list FlagSpec) : option FlagSpec :=
  List.find (fun f => String.eqb (flagName f) name) specs.

(** The non-empty shorthands of a command. *)
Definition shorthands (specs : list FlagSpec) : list string :=
  List.filter (fun s => negb (String.eqb s "")) (map flagShorthand specs).

(** ** Sample environments with failing stages *)

Module Scenario.

(** The sample environment with the given answers of build, image
    production, load and console. *)
Definition env (build produce load : option error) (scanf : option string)
  : Env string string unit string :=
  {| TryGetProject := TryGetProject Sample.env;
     ResolveTarget := ResolveTarget Sample.env;
     NewTargetBuilder := NewTargetBuilder Sample.env;
     TargetBuilderForTargetOrUnittest :=
       TargetBuilderForTargetOrUnittest Sample.env;
     GetTestPkg := GetTestPkg Sample.env;
     SelfTestCreateExe := SelfTestCreateExe Sample.env;
     SelfTestDebug := SelfTestDebug Sample.env;
     Resolve := Resolve Sample.env;
     ValueIsTrue := ValueIsTrue Sample.env;
     Scanf := scanf;
     Build := fun _ => build;
     Stat := Stat Sample.env;
     ParseVersion := ParseVersion Sample.env;
     ReadPrivSignKeys := ReadPrivSignKeys Sample.env;
     ProduceAllV1 := fun _ _ _ _ _ _ _ _ _ => produce;
     ProduceAll := fun _ _ _ _ _ _ _ _ _ _ => produce;
     Load := fun _ _ _ => load;
     Debug := Debug Sample.env |}.

Definition failed (text : string) : option error := Some (NewNewtError text).

End Scenario.

(** * Properties *)

(** ** strconv.ParseUint in base 10 with 8 bits *)

Example ParseUint_7 : strconv.ParseUint "7" 10 8 = inr 7.
Proof. reflexivity. Qed.

Example ParseUint_leading_zeros : strconv.ParseUint "0255" 10 8 = inr 255.
Proof. reflexivity. Qed.

Example ParseUint_256 : strconv.ParseUint "256" 10 8 = inl strconv.ErrRange.
Proof. reflexivity. Qed.

Example ParseUint_empty : strconv.ParseUint "" 10 8 = inl strconv.ErrSyntax.
Proof. reflexivity. Qed.

Example ParseUint_signed : strconv.ParseUint "+5" 10 8 = inl strconv.ErrSyntax.
Proof. reflexivity. Qed.

Example ParseUint_letter : strconv.ParseUint "a" 10 8 = inl strconv.ErrSyntax.
Proof. reflexivity. Qed.

Module ParseUintFacts.
Import strconv.

Lemma decimalDigit_digit c d :
  decimalDigit c = Some d -> digit (byte_of c) = Some d /\ 0 <= d < 10.
Proof.
  unfold decimalDigit, digit.
  destruct ((48 <=? byte_of c) && (byte_of c <=? 57)) eqn:E; [|discriminate].
  intros [= <-]. split; [reflexivity|].
  apply andb_prop in E as [E1 E2]. lia.
Qed.

Lemma not_decimalDigit c :
  decimalDigit c = None ->
  match digit (byte_of c) with Some d => 10 <= d | None => True end.
Proof.
  unfold decimalDigit, digit.
  destruct ((48 <=? byte_of c) && (byte_of c <=? 57)); [discriminate|].
  intros _.
  destruct ((97 <=? lower (byte_of c)) && (lower (byte_of c) <=? 122)) eqn:E;
    [|exact I].
  apply andb_prop in E as [E1 E2]. lia.
Qed.

Lemma decimalFrom_ge s : forall acc v,
  0 <= acc -> decimalFrom s acc = Some v -> acc <= v.
Proof.
  induction s as [|c s IH]; simpl; intros acc v Hacc H.
  - assert (acc = v) by congruence. lia.
  - destruct (decimalDigit c) as [d|] eqn:Ed; [|discriminate].
    apply decimalDigit_digit in Ed as [_ Hd].
    apply IH in H; lia.
Qed.

(** The digit loop started below the 8-bit bound succeeds exactly on a
    run of decimal digits whose value stays within the bound. *)
Lemma loop_decimal s : forall n v,
  0 <= n <= 255 ->
  loop 10 cutoff10 255 s n = inr v <->
  decimalFrom s n = Some v /\ v <= 255.
Proof.
  induction s as [|c s IH]; intros n v Hn; simpl.
  - split.
    + intros [= <-]. split; [reflexivity | lia].
    + intros [[= <-] _]. reflexivity.
  - destruct (decimalDigit c) as [d|] eqn:Ed.
    + apply decimalDigit_digit in Ed as [-> Hd].
      assert (Hc : 255 < cutoff10) by (vm_compute; reflexivity).
      destruct (Z.geb_spec d 10); [lia|].
      destruct (Z.geb_spec n cutoff10); [lia|].
      unfold wrap64.
      assert (H64 : 2 ^ 64 = 18446744073709551616) by reflexivity.
      rewrite (Z.mod_small (n * 10)) by lia.
      rewrite (Z.mod_small (n * 10 + d)) by lia.
      destruct (Z.ltb_spec (n * 10 + d) (n * 10)); [lia|]. simpl.
      destruct (Z.gtb_spec (n * 10 + d) 255).
      * split; [discriminate|].
        intros [Hdec Hv]. apply decimalFrom_ge in Hdec; lia.
      * apply IH. lia.
    + apply not_decimalDigit in Ed.
      destruct (digit (byte_of c)) as [d|].
      * destruct (Z.geb_spec d 10); [|lia].
        split; [discriminate | intros [[=] _]].
      * split; [discriminate | intros [[=] _]].
Qed.

Lemma ParseUint_decimal s v :
  ParseUint s 10 8 = inr v <-> decimalValue s = Some v /\ v <= 255.
Proof.
  destruct s as [|c s].
  - simpl. split; [discriminate | intros [[=] _]].
  - change (ParseUint (String c s) 10 8)
      with (loop 10 cutoff10 255 (String c s) 0).
    change (decimalValue (String c s)) with (decimalFrom (String c s) 0).
    apply loop_decimal. lia.
Qed.

Lemma ParseUint_range s v : ParseUint s 10 8 = inr v -> 0 <= v <= 255.
Proof.
  intros H. apply ParseUint_decimal in H as [H Hv].
  split; [|exact Hv].
  destruct s; [discriminate|]. apply decimalFrom_ge in H; lia.
Qed.

End ParseUintFacts.

(** ** The key argument resolver *)

Section KeyArgs.

Context {Target Builder LocalPackage PrivSignKey : Type}.
Variable env : Env Target Builder LocalPackage PrivSignKey.

(** What one call of the resolver does to an arbitrary state. *)
Lemma parseKeyArgs_unfold args st :
  parseKeyArgs env args st =
  match args with
  | [] => (Done ([], 0, None), st)
  | _ =>
      match keyIdAndFilenames (flags st) args with
      | inl err => (Done ([], 0, Some err), st)
      | inr (keyId, keyFilenames) =>
          let st' := logged st (EvReadPrivSignKeys keyFilenames) in
          match ReadPrivSignKeys env keyFilenames with
          | inl err => (Done ([], 0, Some err), st')
          | inr keys => (Done (keys, keyId, None), st')
          end
      end
  end.
Proof.
  destruct args as [|a0 rest]; [reflexivity|].
  unfold parseKeyArgs, bind, getFlags, emit, ret.
  change (length (a0 :: rest) =? 0)%nat with false. cbv beta iota.
  destruct (keyIdAndFilenames (flags st) (a0 :: rest)) as [err|[keyId fns]];
    [reflexivity|].
  destruct (ReadPrivSignKeys env fns); reflexivity.
Qed.

Lemma keyIdAndFilenames_legacy fl a0 a1 rest :
  useV1 fl = true ->
  keyIdAndFilenames fl (a0 :: a1 :: rest) =
  match strconv.ParseUint a1 10 8 with
  | inl _ => inl (NewNewtError "Key ID must be between 0-255")
  | inr keyIdUint => inr (uint8 keyIdUint, [a0])
  end.
Proof.
  intros HV1. unfold keyIdAndFilenames. rewrite HV1. reflexivity.
Qed.

Lemma keyIdAndFilenames_current fl a0 rest :
  useV1 fl = false ->
  keyIdAndFilenames fl (a0 :: rest) = inr (0, a0 :: rest).
Proof.
  intros HV1. unfold keyIdAndFilenames. rewrite HV1.
  destruct rest; reflexivity.
Qed.

(** C4. Under the legacy format and with at least two arguments, the key
    ID is the decimal value of the second argument when that is a decimal
    numeral between 0 and 255, and the call ends in the key ID error
    otherwise; the only file name handed to the key loader is the first
    argument, whatever follows the second.  When the loader refuses the
    file, its error is returned in place of the keys and the key ID. *)
Theorem parseKeyArgs_legacy_key_id a0 a1 rest st :
  useV1 (flags st) = true ->
  (forall n, isKeyId a1 n ->
     keyIdAndFilenames (flags st) (a0 :: a1 :: rest) = inr (n, [a0])
     /\ parseKeyArgs env (a0 :: a1 :: rest) st =
        match ReadPrivSignKeys env [a0] with
        | inr keys =>
            (Done (keys, n, None), logged st (EvReadPrivSignKeys [a0]))
        | inl err =>
            (Done ([], 0, Some err), logged st (EvReadPrivSignKeys [a0]))
        end)
  /\ ((forall n, ~ isKeyId a1 n) ->
      parseKeyArgs env (a0 :: a1 :: rest) st =
      (Done ([], 0, Some (NewNewtError "Key ID must be between 0-255")), st)).
Proof.
  intros HV1. rewrite parseKeyArgs_unfold.
  rewrite (keyIdAndFilenames_legacy _ _ _ _ HV1).
  split.
  - intros n [Hdec Hn].
    assert (E : strconv.ParseUint a1 10 8 = inr n)
      by (apply ParseUintFacts.ParseUint_decimal; split; [exact Hdec | lia]).
    rewrite E.
    replace (uint8 n) with n by (unfold uint8; rewrite Z.mod_small; lia).
    split; [reflexivity|].
    cbv zeta. destruct (ReadPrivSignKeys env [a0]); reflexivity.
  - intros Hno.
    destruct (strconv.ParseUint a1 10 8) as [e|v] eqn:E; [reflexivity|].
    exfalso. apply (Hno v).
    pose proof (ParseUintFacts.ParseUint_range _ _ E).
    apply ParseUintFacts.ParseUint_decimal in E as [E _].
    split; assumption.
Qed.

(** C5. Unless the legacy format is selected, every argument is handed to
    the key loader as a file name and the key ID returned is 0; a key ID
    other than 0 is returned under the legacy format only. *)
Theorem parseKeyArgs_current_format args st :
  (useV1 (flags st) = false ->
   parseKeyArgs env args st =
   match args with
   | [] => (Done ([], 0, None), st)
   | _ =>
       match ReadPrivSignKeys env args with
       | inr keys =>
           (Done (keys, 0, None), logged st (EvReadPrivSignKeys args))
       | inl err =>
           (Done ([], 0, Some err), logged st (EvReadPrivSignKeys args))
       end
   end)
  /\ (forall keys keyId err st',
        parseKeyArgs env args st = (Done (keys, keyId, err), st') ->
        keyId <> 0 -> useV1 (flags st) = true).
Proof.
  assert (Hcur : useV1 (flags st) = false ->
    parseKeyArgs env args st =
    match args with
    | [] => (Done ([], 0, None), st)
    | _ =>
        match ReadPrivSignKeys env args with
        | inr keys =>
            (Done (keys, 0, None), logged st (EvReadPrivSignKeys args))
        | inl err =>
            (Done ([], 0, Some err), logged st (EvReadPrivSignKeys args))
        end
    end).
  { intros HV1. rewrite parseKeyArgs_unfold.
    destruct args as [|a0 rest]; [reflexivity|].
    rewrite (keyIdAndFilenames_current _ _ _ HV1). cbv zeta.
    destruct (ReadPrivSignKeys env (a0 :: rest)); reflexivity. }
  split; [exact Hcur|].
  intros keys keyId err st' Hrun Hne.
  destruct (useV1 (flags st)) eqn:HV1; [reflexivity|].
  exfalso. apply Hne.
  rewrite (Hcur eq_refl) in Hrun.
  destruct args as [|a0 rest]; [congruence|].
  destruct (ReadPrivSignKeys env (a0 :: rest)); congruence.
Qed.

End KeyArgs.

(** A run of C4 on the sample environment, with a third argument. *)
Lemma parseKeyArgs_legacy_key_id_witness :
  keyIdAndFilenames Sample.legacy ["k.pem"; "5"; "missing.pem"]
    = inr (5, ["k.pem"])
  /\ exec (parseKeyArgs Sample.env ["k.pem"; "5"; "missing.pem"]) Sample.legacy
     = (Done (["k.pem"], 5, None),
        {| flags := Sample.legacy; log := [EvReadPrivSignKeys ["k.pem"]] |}).
Proof.
  apply (proj1 (parseKeyArgs_legacy_key_id Sample.env "k.pem" "5"
                  ["missing.pem"]
                  {| flags := Sample.legacy; log := [] |} eq_refl) 5).
  split; [reflexivity | split; discriminate].
Defined.

(** A run of C5 on the sample environment. *)
Lemma parseKeyArgs_current_format_witness :
  exec (parseKeyArgs Sample.env ["k1.pem"; "k2.pem"; "k3.pem"]) Sample.defaults =
  (Done (["k1.pem"; "k2.pem"; "k3.pem"], 0, None),
   {| flags := Sample.defaults;
      log := [EvReadPrivSignKeys ["k1.pem"; "k2.pem"; "k3.pem"]] |}).
Proof.
  apply (proj1 (parseKeyArgs_current_format Sample.env
                  ["k1.pem"; "k2.pem"; "k3.pem"]
                  {| flags := Sample.defaults; log := [] |}) eq_refl).
Defined.

(** ** The two commands *)

(** Setting [useV2] does not change what the resolver reads. *)
Lemma keyIdAndFilenames_set_useV2 v fl args :
  keyIdAndFilenames (set_useV2 v fl) args = keyIdAndFilenames fl args.
Proof. reflexivity. Qed.

(** Unfold a command down to the collaborators' answers. *)
Ltac cmd_unfold :=
  unfold resolvedVerStr, outcome, trace, exec,
    createImageRunCmd, runRunCmd, runVerStr, checkFormatFlags, produce,
    parseKeyArgs, when, failOn, bind, ret, emit, getFlags, setFlags,
    NewtUsage, logged in *.

(** Case analysis on whatever answer the goal still branches on. *)
Ltac cmd_case :=
  match goal with
  | |- context [match ?x with _ => _ end] =>
      lazymatch x with
      | context [match _ with _ => _ end] => fail
      | _ => destruct x eqn:?
      end
  | |- context [if ?x then _ else _] =>
      lazymatch x with
      | context [if _ then _ else _] => fail
      | context [match _ with _ => _ end] => fail
      | _ => destruct x eqn:?
      end
  end.

(** Split a membership hypothesis over an explicit log, dropping the
    entries of another kind. *)
Ltac log_cases :=
  repeat match goal with
    | H : False |- _ => contradiction
    | H : _ \/ _ |- _ => destruct H as [H|H]
    | H : @eq (Event _) _ ?e |- _ =>
        first [discriminate H | is_var e; subst e | injection H as ?; subst]
    end.

Ltac cmd_cases :=
  repeat (cbn -[keyIdAndFilenames String.eqb lookup default] in *;
          rewrite ?keyIdAndFilenames_set_useV2 in *;
          try cmd_case).

Section Pipeline.

Context {Target Builder LocalPackage PrivSignKey : Type}.
Variable env : Env Target Builder LocalPackage PrivSignKey.

(** C8. With both format flags set, either command ends in an argument
    error before anything outside the command is called: the log stays
    empty, whatever the arguments and the collaborators. *)
Theorem both_format_flags_rejected fl args :
  useV1 fl = true -> useV2 fl = true ->
  exec (createImageRunCmd env args) fl =
    (Exited true
       (NewNewtError (if (length args <? 2)%nat
                      then "Must specify target and version"
                      else "Either -1, or -2, but not both")),
     {| flags := fl; log := [] |})
  /\ exec (runRunCmd env args) fl =
    (Exited true
       (NewNewtError (if (length args <? 1)%nat
                      then "Must specify target"
                      else "Either -1, or -2, but not both")),
     {| flags := fl; log := [] |}).
Proof.
  intros HV1 HV2. cmd_unfold. split.
  - destruct (length args <? 2)%nat; cbn; [reflexivity|].
    rewrite HV1, HV2. reflexivity.
  - destruct (length args <? 1)%nat; cbn; [reflexivity|].
    rewrite HV1, HV2. reflexivity.
Qed.

(** C3 as the code has it. In the image command the key files are read
    after the builder is constructed and before the build is started: no
    key read follows the build, and when the key loader or the key ID
    parser refuses, the command ends with that error without building.
    The image producer, for its part, is only called after the build, and
    only when the build succeeded. *)
Theorem createImage_keys_before_build fl args :
  neverAfter isBuild isKeyRead (trace (createImageRunCmd env args) fl) = true
  /\ onlyAfter isNewTargetBuilder isKeyRead
       (trace (createImageRunCmd env args) fl) = true
  /\ (forall filenames err,
        In (EvReadPrivSignKeys filenames)
           (trace (createImageRunCmd env args) fl) ->
        ReadPrivSignKeys env filenames = inl err ->
        existsb isBuild (trace (createImageRunCmd env args) fl) = false
        /\ outcome (createImageRunCmd env args) fl = Exited true err)
  /\ (forall err,
        skipn 2 args <> [] ->
        keyIdAndFilenames fl (skipn 2 args) = inl err ->
        existsb isBuild (trace (createImageRunCmd env args) fl) = false
        /\ existsb isKeyRead (trace (createImageRunCmd env args) fl) = false
        /\ (existsb isNewTargetBuilder
              (trace (createImageRunCmd env args) fl) = true ->
            forall t b,
              ResolveTarget env (idx args 0) = Some t ->
              NewTargetBuilder env t = inr b ->
              outcome (createImageRunCmd env args) fl = Exited true err))
  /\ onlyAfter isBuild isProduce (trace (createImageRunCmd env args) fl) = true
  /\ (forall e b t,
        In e (trace (createImageRunCmd env args) fl) ->
        isProduce e = true ->
        ResolveTarget env (idx args 0) = Some t ->
        NewTargetBuilder env t = inr b ->
        Build env b = None).
Proof.
  cmd_unfold.
  destruct args as [|a0 [|a1 rest]];
    [cbn; repeat split; try reflexivity; intros; contradiction ..|].
  destruct rest as [|k0 rest]; cmd_cases;
    (repeat split; try reflexivity; intros; log_cases;
     first [congruence | discriminate]).
Qed.





(** C1 as the code has it. The run command never reads the modification
    time of the build output.  A version argument that spells
    [timestamp] is, once the build has succeeded, handed to the version
    parser like any other: when the parser refuses it the command ends
    there with the parser's error, and an image is only ever produced
    with the version the parser returned for it. *)
Theorem run_timestamp_token_is_parsed fl t rest :
  existsb isStat (trace (runRunCmd env (t :: "timestamp" :: rest)) fl) = false
  /\ (forall b err,
        useV1 fl && useV2 fl = false ->
        TryGetProject env = None ->
        TargetBuilderForTargetOrUnittest env t = inr b ->
        GetTestPkg env b = None ->
        Build env b = None ->
        ParseVersion env "timestamp" = inl err ->
        outcome (runRunCmd env (t :: "timestamp" :: rest)) fl
          = Exited true err
        /\ trace (runRunCmd env (t :: "timestamp" :: rest)) fl
          = [EvTryGetProject; EvTargetBuilderForTargetOrUnittest t;
             EvBuild; EvParseVersion "timestamp"])
  /\ (forall e,
        In e (trace (runRunCmd env (t :: "timestamp" :: rest)) fl) ->
        isProduce e = true ->
        exists ver keys,
          ParseVersion env "timestamp" = inr ver
          /\ e = produceCall fl ver keys "").
Proof.
  unfold produceCall. cmd_unfold. split; [|split].
  - destruct rest as [|k0 rest]; cmd_cases; reflexivity.
  - intros b err Hfl Hproj Hb Htest Hbuild Hparse.
    cbn. rewrite Hfl. cbn.
    destruct (useV1 fl); cbn;
      rewrite Hproj; cbn; rewrite Hb; cbn; rewrite Htest; cbn;
      rewrite Hbuild; cbn; rewrite Hparse; cbn; split; reflexivity.
  - intros e.
    destruct rest as [|k0 rest]; cmd_cases; intros; log_cases;
      try discriminate; do 2 eexists; split; reflexivity.
Qed.



(** C10. When the run command settles on an empty version string, no key
    file is read and no image is produced, and the arguments after the
    version play no part: the command ends in the same state as without
    them. *)
Theorem run_empty_version_skips_keys fl args :
  resolvedVerStr env fl args = Some "" ->
  existsb isKeyRead (trace (runRunCmd env args) fl) = false
  /\ existsb isProduce (trace (runRunCmd env args) fl) = false
  /\ exec (runRunCmd env args) fl = exec (runRunCmd env (firstn 2 args)) fl.
Proof.
  destruct args as [|t [|v rest]].
  - intros _. repeat split.
  - intros Hver. split; [|split]; [| |reflexivity];
      revert Hver; cmd_unfold; cmd_cases; intros;
      first [ reflexivity | discriminate | congruence
            | match goal with
              | H : Some _ = Some "" |- _ =>
                  injection H as H; rewrite H in *; discriminate
              end ].
  - intros Hver.
    assert (v = "").
    { revert Hver. cmd_unfold. cmd_cases; congruence. }
    subst v. clear Hver.
    split; [|split]; cmd_unfold; cmd_cases; reflexivity.
Qed.


(** C7. A run command with the target as its only argument, on a target
    that is no unit test and whose configuration resolves: when the
    configuration marks a boot loader or a simulated target, nothing is
    printed or read on the console, the version string stays empty, and
    the log is the build followed, each only after the step before has
    succeeded, by load and debug, with no version parsed, no key read and
    no image produced; otherwise the prompt is shown and, when nothing is
    read from the console, the version string is "0". *)
Theorem run_without_version fl t b settings :
  useV1 fl && useV2 fl = false ->
  TryGetProject env = None ->
  TargetBuilderForTargetOrUnittest env t = inr b ->
  GetTestPkg env b = None ->
  Resolve env b = inr settings ->
  let bootOrSim :=
    ValueIsTrue env (default "" (settings !! "BOOT_LOADER"))
    || ValueIsTrue env (default "" (settings !! "BSP_SIMULATED")) in
  (bootOrSim = true ->
   resolvedVerStr env fl [t] = Some ""
   /\ trace (runRunCmd env [t]) fl =
      [EvTryGetProject; EvTargetBuilderForTargetOrUnittest t;
       EvResolve; EvBuild]
      ++ match Build env b with
         | Some _ => []
         | None =>
             EvLoad (extraJtagCmd fl) ""
             :: match Load env b (extraJtagCmd fl) "" with
                | Some _ => []
                | None => [EvDebug (extraJtagCmd fl) true (noGDB_flag fl) ""]
                end
         end)
  /\ (bootOrSim = false ->
      Scanf env = None ->
      resolvedVerStr env fl [t] = Some "0"
      /\ existsb isPrompt (trace (runRunCmd env [t]) fl) = true
      /\ (Build env b = None ->
          In (EvParseVersion "0") (trace (runRunCmd env [t]) fl))).
Proof.
  intros Hfl Hproj Hb Htest Hres bootOrSim. subst bootOrSim.
  assert (Hskip :
    negb (ValueIsTrue env (default "" (settings !! "BOOT_LOADER")))
    && negb (ValueIsTrue env (default "" (settings !! "BSP_SIMULATED")))
    = negb (ValueIsTrue env (default "" (settings !! "BOOT_LOADER"))
            || ValueIsTrue env (default "" (settings !! "BSP_SIMULATED"))))
    by (symmetry; apply negb_orb).
  cmd_unfold.
  split.
  - intros Hbs. rewrite Hbs in Hskip.
    repeat (cbn -[lookup default];
            rewrite ?Hfl, ?Hproj, ?Hb, ?Htest, ?Hres, ?Hskip).
    split; [reflexivity|].
    cmd_cases; reflexivity.
  - intros Hbs HScanf. rewrite Hbs in Hskip.
    repeat (cbn -[lookup default];
            rewrite ?Hfl, ?Hproj, ?Hb, ?Htest, ?Hres, ?Hskip, ?HScanf).
    change (default "0" (@None string)) with "0".
    split; [reflexivity|].
    split; [cmd_cases; reflexivity|].
    intros ->. cmd_cases; repeat (first [left; reflexivity | right]).
Qed.


(** X24. The image command in timestamp mode: the modification time is read
    only after the build, and an image is only ever produced with the
    version derived from the time read. *)
Lemma createImage_timestamp_derivation fl t rest e :
  onlyAfter isBuild isStat
    (trace (createImageRunCmd env (t :: "timestamp" :: rest)) fl) = true
  /\ (In e (trace (createImageRunCmd env (t :: "timestamp" :: rest)) fl) ->
      isProduce e = true ->
      exists target b modTime keys,
        ResolveTarget env t = Some target
        /\ NewTargetBuilder env target = inr b
        /\ Build env b = None
        /\ Stat env b = inr modTime
        /\ e = produceCall fl (timestampVersion modTime) keys
                 (owSrcFilename fl)).
Proof.
  unfold produceCall. cmd_unfold.
  cbn -[keyIdAndFilenames String.eqb].
  change (("timestamp" =? "timestamp")%string) with true.
  split.
  - destruct rest as [|k0 rest]; cmd_cases; reflexivity.
  - destruct rest as [|k0 rest]; cmd_cases; intros; log_cases;
      try discriminate; do 4 eexists; repeat split; eassumption.
Qed.

End Pipeline.

(** ** The version derived from a timestamp *)

Section TimestampVersion.

Context {Target Builder LocalPackage PrivSignKey : Type}.
Variable env : Env Target Builder LocalPackage PrivSignKey.

(** C6. In the image command with the version argument [timestamp], the
    version is not parsed but derived from the modification time read for
    the built target, after the build: on a calendar moment it has
    Major = year mod 1000 cut to 8 bits, Minor = month, Rev = day and
    BuildNum = hour * 10000 + minute * 100 + second; an image is only ever
    produced with that version, and it is produced with it whenever the
    stages before succeed. *)
Theorem timestamp_version_fields fl t rest target b mt :
  ResolveTarget env t = Some target ->
  NewTargetBuilder env target = inr b ->
  Stat env b = inr mt ->
  0 <= Year mt ->
  1 <= Month mt <= 12 ->
  1 <= Day mt <= 31 ->
  0 <= Hour mt <= 23 ->
  0 <= Minute mt <= 59 ->
  0 <= Second mt <= 59 ->
  let derived :=
    {| Major := (Year mt mod 1000) mod 2 ^ 8;
       Minor := Month mt;
       Rev := Day mt;
       BuildNum := Hour mt * 10000 + Minute mt * 100 + Second mt |} in
  let tr := trace (createImageRunCmd env (t :: "timestamp" :: rest)) fl in
  timestampVersion mt = derived
  /\ existsb isParseVersion tr = false
  /\ onlyAfter isBuild isStat tr = true
  /\ (forall e,
        In e tr -> isProduce e = true ->
        exists keys, e = produceCall fl derived keys (owSrcFilename fl))
  /\ (useV1 fl && useV2 fl = false ->
      TryGetProject env = None ->
      Build env b = None ->
      forall keys keyId,
        outcome (parseKeyArgs env rest) fl = Done (keys, keyId, None) ->
        In EvStat tr
        /\ In (produceCall fl derived keys (owSrcFilename fl)) tr).
Proof.
  intros Ht Hb Hstat Hy Hmo Hd Hh Hmi Hs derived tr.
  assert (Hder : timestampVersion mt = derived).
  { subst derived. unfold timestampVersion, uint8, uint16, uint32.
    rewrite Z.rem_mod_nonneg by lia.
    rewrite (Z.mod_small (Month mt)) by lia.
    rewrite (Z.mod_small (Day mt)) by lia.
    rewrite (Z.mod_small (Hour mt * 10000 + Minute mt * 100 + Second mt))
      by lia.
    reflexivity. }
  split; [exact Hder|].
  clearbody derived. rewrite <- Hder. clear Hder. subst tr.
  unfold produceCall. cmd_unfold.
  cbn -[keyIdAndFilenames String.eqb].
  change (("timestamp" =? "timestamp")%string) with true.
  split; [|split; [|split]].
  - destruct rest as [|k0 rest];
      repeat (cbn -[keyIdAndFilenames String.eqb lookup default] in *;
              rewrite ?keyIdAndFilenames_set_useV2, ?Ht, ?Hb, ?Hstat;
              try cmd_case);
      reflexivity.
  - destruct rest as [|k0 rest];
      repeat (cbn -[keyIdAndFilenames String.eqb lookup default] in *;
              rewrite ?keyIdAndFilenames_set_useV2, ?Ht, ?Hb, ?Hstat;
              try cmd_case);
      reflexivity.
  - intros e.
    destruct rest as [|k0 rest];
      repeat (cbn -[keyIdAndFilenames String.eqb lookup default] in *;
              rewrite ?keyIdAndFilenames_set_useV2, ?Ht, ?Hb, ?Hstat;
              try cmd_case);
      intros; log_cases; try discriminate; eexists; reflexivity.
  - intros Hfl Hproj Hbuild keys keyId.
    destruct rest as [|k0 rest].
    + cbn. intros Hkeys. injection Hkeys as <- _.
      repeat (cbn -[keyIdAndFilenames String.eqb lookup default];
              rewrite ?Ht, ?Hb, ?Hstat, ?Hfl, ?Hproj, ?Hbuild;
              try cmd_case);
        cbn -[keyIdAndFilenames String.eqb] in *;
        first [congruence | split; repeat (first [left; reflexivity | right])].
    + cbn -[keyIdAndFilenames String.eqb].
      destruct (keyIdAndFilenames fl (k0 :: rest)) as [?|[kid fns]] eqn:EK;
        [intros Hkeys; discriminate Hkeys|].
      cbn -[keyIdAndFilenames String.eqb].
      destruct (ReadPrivSignKeys env fns) as [?|ks] eqn:ER;
        [intros Hkeys; discriminate Hkeys|].
      intros Hkeys. injection Hkeys as <- _.
      repeat (cbn -[keyIdAndFilenames String.eqb lookup default];
              rewrite ?keyIdAndFilenames_set_useV2, ?EK, ?ER, ?Ht, ?Hb,
                ?Hstat, ?Hfl, ?Hproj, ?Hbuild;
              try cmd_case);
        cbn -[keyIdAndFilenames String.eqb] in *;
        first [congruence | split; repeat (first [left; reflexivity | right])].
Qed.

End TimestampVersion.

(** The example of the specification: 2024-03-07 14:05:09. *)
Lemma timestamp_version_fields_witness :
  timestampVersion (mkModTime 2024 3 7 14 5 9) = mkVersion 24 3 7 140509
  /\ In EvStat
       (trace (createImageRunCmd Sample.env ["t1"; "timestamp"; "k.pem"])
          Sample.defaults)
  /\ In (EvProduceAll (mkVersion 24 3 7 140509) ["k.pem"] "" (-1) 0 0 ""
           false "")
       (trace (createImageRunCmd Sample.env ["t1"; "timestamp"; "k.pem"])
          Sample.defaults).
Proof.
  destruct (timestamp_version_fields Sample.env Sample.defaults "t1"
              ["k.pem"] "t1" "t1" (mkModTime 2024 3 7 14 5 9)
              eq_refl eq_refl eq_refl)
    as (Hfields & _ & _ & _ & Hrun); try (cbn; lia).
  split; [exact Hfields|].
  apply (Hrun eq_refl eq_refl eq_refl ["k.pem"] 0). reflexivity.
Defined.

(** ** Runs on the sample environment *)

(** C1, as stated, fails: [run t1 timestamp] builds, hands the word to the
    version parser and ends with the parser's error; the modification time
    is not read and nothing is produced. *)
Lemma run_timestamp_counterexample :
  exec (runRunCmd Sample.env ["t1"; "timestamp"]) Sample.defaults =
  (Exited true (NewNewtError "invalid version string timestamp"),
   {| flags := set_useV2 true Sample.defaults;
      log := [EvTryGetProject; EvTargetBuilderForTargetOrUnittest "t1";
              EvBuild; EvParseVersion "timestamp"] |}).
Proof. vm_compute. reflexivity. Qed.

Lemma run_timestamp_token_is_parsed_witness :
  outcome (runRunCmd Sample.env ["t1"; "timestamp"]) Sample.defaults
    = Exited true (NewNewtError "invalid version string timestamp")
  /\ trace (runRunCmd Sample.env ["t1"; "timestamp"]) Sample.defaults
    = [EvTryGetProject; EvTargetBuilderForTargetOrUnittest "t1";
       EvBuild; EvParseVersion "timestamp"].
Proof.
  apply (proj1 (proj2 (run_timestamp_token_is_parsed Sample.env
                         Sample.defaults "t1" [])) "t1");
    reflexivity.
Defined.



(** C3, as stated, fails: in the image command the key file is read
    before the build is started. *)
Lemma createImage_key_read_counterexample :
  trace (createImageRunCmd Sample.env ["t1"; "1.3.0.3"; "k.pem"])
    Sample.defaults
  = [EvTryGetProject; EvResolveTarget "t1"; EvParseVersion "1.3.0.3";
     EvNewTargetBuilder; EvReadPrivSignKeys ["k.pem"]; EvBuild;
     EvProduceAll (mkVersion 1 3 0 3) ["k.pem"] "" (-1) 0 0 "" false ""]
  /\ onlyAfter isBuild isKeyRead
       (trace (createImageRunCmd Sample.env ["t1"; "1.3.0.3"; "k.pem"])
          Sample.defaults) = false.
Proof. vm_compute. split; reflexivity. Qed.

(** A key file that cannot be read ends the image command before the
    build. *)
Lemma createImage_keys_before_build_witness :
  existsb isBuild
    (trace (createImageRunCmd Sample.env ["t1"; "1.3.0.3"; "missing.pem"])
       Sample.defaults) = false
  /\ outcome (createImageRunCmd Sample.env ["t1"; "1.3.0.3"; "missing.pem"])
       Sample.defaults
     = Exited true (NewNewtError "open missing.pem: no such file or directory").
Proof.
  apply (proj1 (proj2 (proj2 (createImage_keys_before_build Sample.env
                                Sample.defaults
                                ["t1"; "1.3.0.3"; "missing.pem"])))
           ["missing.pem"]).
  - vm_compute. do 4 right. left. reflexivity.
  - reflexivity.
Defined.

Lemma run_without_version_witness :
  resolvedVerStr Sample.env Sample.defaults ["boot"] = Some ""
  /\ trace (runRunCmd Sample.env ["boot"]) Sample.defaults
     = [EvTryGetProject; EvTargetBuilderForTargetOrUnittest "boot";
        EvResolve; EvBuild; EvLoad "" ""; EvDebug "" true false ""].
Proof.
  apply (proj1 (run_without_version Sample.env Sample.defaults "boot" "boot"
                  (Sample.settingsOf "boot")
                  eq_refl eq_refl eq_refl eq_refl eq_refl)).
  vm_compute. reflexivity.
Defined.

Lemma both_format_flags_rejected_witness :
  exec (createImageRunCmd Sample.env ["t1"; "1.3.0.3"; "k.pem"]) Sample.both
    = (Exited true (NewNewtError "Either -1, or -2, but not both"),
       {| flags := Sample.both; log := [] |})
  /\ exec (runRunCmd Sample.env ["t1"; "1.3.0.3"; "k.pem"]) Sample.both
    = (Exited true (NewNewtError "Either -1, or -2, but not both"),
       {| flags := Sample.both; log := [] |}).
Proof.
  apply (both_format_flags_rejected Sample.env Sample.both
           ["t1"; "1.3.0.3"; "k.pem"]); reflexivity.
Defined.



Lemma run_empty_version_skips_keys_witness :
  existsb isKeyRead
    (trace (runRunCmd Sample.env ["t1"; ""; "missing.pem"; "256"])
       Sample.legacy) = false
  /\ existsb isProduce
       (trace (runRunCmd Sample.env ["t1"; ""; "missing.pem"; "256"])
          Sample.legacy) = false
  /\ exec (runRunCmd Sample.env ["t1"; ""; "missing.pem"; "256"]) Sample.legacy
     = exec (runRunCmd Sample.env ["t1"; ""]) Sample.legacy.
Proof.
  apply (run_empty_version_skips_keys Sample.env Sample.legacy
           ["t1"; ""; "missing.pem"; "256"]).
  reflexivity.
Defined.

(** * Further properties of the commands *)

Section More.

Context {Target Builder LocalPackage PrivSignKey : Type}.
Variable env : Env Target Builder LocalPackage PrivSignKey.

(** X1. With no argument the resolver returns no keys and reads nothing;
    with one argument that argument is the only key file and the key ID is
    0.  The format flags play no part in either case. *)
Theorem parseKeyArgs_short args st :
  (length args <= 1)%nat ->
  parseKeyArgs env args st =
  match args with
  | [] => (Done ([], 0, None), st)
  | a0 :: _ =>
      match ReadPrivSignKeys env [a0] with
      | inr keys =>
          (Done (keys, 0, None), logged st (EvReadPrivSignKeys [a0]))
      | inl err =>
          (Done ([], 0, Some err), logged st (EvReadPrivSignKeys [a0]))
      end
  end.
Proof.
  intros Hlen. destruct args as [|a0 [|a1 rest]]; [reflexivity| |cbn in Hlen; lia].
  rewrite parseKeyArgs_unfold. cbn.
  destruct (ReadPrivSignKeys env [a0]); reflexivity.
Qed.

(** X2. The resolver never ends the process and never touches the package
    variables; it reads keys at most once, and then a non-empty list of
    names that all come from the arguments; the key ID it returns lies
    between 0 and 255; and with an error it returns no keys and key ID
    0. *)
Theorem parseKeyArgs_result args st :
  exists keys keyId err st',
    parseKeyArgs env args st = (Done (keys, keyId, err), st')
    /\ flags st' = flags st
    /\ 0 <= keyId <= 255
    /\ (err <> None -> keys = [] /\ keyId = 0)
    /\ (log st' = log st
        \/ exists filenames,
             filenames <> [] /\ incl filenames args
             /\ log st' = log st ++ [EvReadPrivSignKeys filenames]).
Proof.
  rewrite parseKeyArgs_unfold.
  destruct args as [|a0 rest].
  { exists [], 0, None, st.
    split; [reflexivity|]. split; [reflexivity|]. split; [lia|].
    split; [congruence | now left]. }
  assert (Hsel : forall keyId filenames,
            keyIdAndFilenames (flags st) (a0 :: rest) = inr (keyId, filenames) ->
            0 <= keyId <= 255 /\ filenames <> [] /\ incl filenames (a0 :: rest)).
  { intros keyId filenames. unfold keyIdAndFilenames.
    destruct rest as [|a1 rest]; cbn.
    - intros [= <- <-].
      split; [lia|]. split; [discriminate | apply incl_refl].
    - destruct (useV1 (flags st)).
      + destruct (strconv.ParseUint a1 10 8) as [|v] eqn:E; [discriminate|].
        intros [= <- <-].
        apply ParseUintFacts.ParseUint_range in E.
        unfold uint8. rewrite Z.mod_small by lia.
        split; [lia|]. split; [discriminate|].
        intros x [<-|[]]. now left.
      + intros [= <- <-].
        split; [lia|]. split; [discriminate | apply incl_refl]. }
  destruct (keyIdAndFilenames (flags st) (a0 :: rest)) as [e|[keyId filenames]].
  { exists [], 0, (Some e), st.
    split; [reflexivity|]. split; [reflexivity|]. split; [lia|].
    split; [intros _; split; reflexivity | now left]. }
  destruct (Hsel _ _ eq_refl) as (Hid & Hne & Hincl). cbv zeta.
  destruct (ReadPrivSignKeys env filenames) as [e|keys].
  - exists [], 0, (Some e), (logged st (EvReadPrivSignKeys filenames)).
    split; [reflexivity|]. split; [reflexivity|]. split; [lia|].
    split; [intros _; split; reflexivity|].
    right. exists filenames. repeat split; assumption.
  - exists keys, keyId, None, (logged st (EvReadPrivSignKeys filenames)).
    split; [reflexivity|]. split; [reflexivity|]. split; [lia|].
    split; [congruence|].
    right. exists filenames. repeat split; assumption.
Qed.

(** X3. Too few arguments: the image command with fewer than two and the
    run command with none end in their usage error before the format flags
    are looked at and before anything is called. *)
Theorem too_few_arguments fl args :
  ((length args < 2)%nat ->
   exec (createImageRunCmd env args) fl =
   (Exited true (NewNewtError "Must specify target and version"),
    {| flags := fl; log := [] |}))
  /\ ((length args < 1)%nat ->
      exec (runRunCmd env args) fl =
      (Exited true (NewNewtError "Must specify target"),
       {| flags := fl; log := [] |})).
Proof.
  split; intros Hlen.
  - destruct args as [|a0 [|a1 rest]]; [reflexivity..|cbn in Hlen; lia].
  - destruct args as [|a0 rest]; [reflexivity|cbn in Hlen; lia].
Qed.

(** X4. An unknown target name ends the image command with the
    "Invalid target name" usage error right after the registry was asked:
    no version is parsed, no builder made, no key read and nothing built. *)
Theorem createImage_unknown_target fl args :
  (2 <= length args)%nat ->
  useV1 fl && useV2 fl = false ->
  TryGetProject env = None ->
  ResolveTarget env (idx args 0) = None ->
  outcome (createImageRunCmd env args) fl =
    Exited true (NewNewtError ("Invalid target name: " +:+ idx args 0))
  /\ trace (createImageRunCmd env args) fl =
    [EvTryGetProject; EvResolveTarget (idx args 0)].
Proof.
  intros Hlen Hfl Hproj Htarget.
  destruct args as [|a0 [|a1 rest]]; [cbn in Hlen; lia..|].
  cbn [idx nth] in *. cmd_unfold.
  repeat (cbn -[String.append]; rewrite ?Hfl, ?Hproj, ?Htarget).
  destruct (useV1 fl);
    repeat (cbn -[String.append]; rewrite ?Hfl, ?Hproj, ?Htarget);
    split; reflexivity.
Qed.

End More.

Section More2.

Context {Target Builder LocalPackage PrivSignKey : Type}.
Variable env : Env Target Builder LocalPackage PrivSignKey.

(** X5. The image command calls its collaborators in the order of its
    text, each at most once, and calls nothing else. *)
Theorem createImage_stage_order fl args :
  increasing (map createImageStage (trace (createImageRunCmd env args) fl))
    = true
  /\ forallb (fun e => (createImageStage e <? 8)%nat)
       (trace (createImageRunCmd env args) fl) = true.
Proof.
  cmd_unfold.
  destruct args as [|a0 [|a1 [|k0 rest]]]; cmd_cases; split; reflexivity.
Qed.

(** X6. The run command calls its collaborators in the order of its text,
    each at most once, and calls nothing else; in particular the version is
    parsed and the keys are read only after the build. *)
Theorem run_stage_order fl args :
  increasing (map runStage (trace (runRunCmd env args) fl)) = true
  /\ forallb (fun e => (runStage e <? 14)%nat)
       (trace (runRunCmd env args) fl) = true.
Proof.
  cmd_unfold.
  destruct args as [|a0 [|a1 [|k0 rest]]]; cmd_cases; split; reflexivity.
Qed.

(** X7. When the image command returns normally, its last call was the
    image producer, that was the only call of the producer, and the build
    was run before. *)
Theorem createImage_success fl args :
  outcome (createImageRunCmd env args) fl = Done tt ->
  endsWith isProduce (trace (createImageRunCmd env args) fl) = true
  /\ length (List.filter isProduce (trace (createImageRunCmd env args) fl))
     = 1%nat
  /\ existsb isBuild (trace (createImageRunCmd env args) fl) = true.
Proof.
  cmd_unfold.
  destruct args as [|a0 [|a1 [|k0 rest]]]; cmd_cases;
    intros; first [discriminate | repeat split].
Qed.

(** X8. When the run command returns normally, either its last call was
    the debugger, after a build and a load, or the target was a unit test
    and its last call was the self-test debugger, after the self-test
    executable was made and without a build. *)
Theorem run_success fl args :
  outcome (runRunCmd env args) fl = Done tt ->
  let tr := trace (runRunCmd env args) fl in
  (endsWith isDebug tr && existsb isLoad tr && existsb isBuild tr)
  || (endsWith isSelfTestDebug tr && existsb isSelfTestCreateExe tr
      && negb (existsb isBuild tr)) = true.
Proof.
  cmd_unfold.
  destruct args as [|a0 [|a1 [|k0 rest]]]; cmd_cases;
    intros; first [discriminate | reflexivity].
Qed.

(** X9. In the image command every exit that prints the usage text happens
    before the build is started. *)
Theorem createImage_usage_exit_before_build fl args err :
  outcome (createImageRunCmd env args) fl = Exited true err ->
  existsb isBuild (trace (createImageRunCmd env args) fl) = false.
Proof.
  cmd_unfold.
  destruct args as [|a0 [|a1 [|k0 rest]]]; cmd_cases;
    intros; first [discriminate | reflexivity].
Qed.

(** X10. A failing build ends either command with the build's own error,
    without usage text, and the build is the last call made. *)
Theorem build_failure_aborts fl args err :
  (forall t b,
     ResolveTarget env (idx args 0) = Some t ->
     NewTargetBuilder env t = inr b ->
     Build env b = Some err ->
     existsb isBuild (trace (createImageRunCmd env args) fl) = true ->
     outcome (createImageRunCmd env args) fl = Exited false err
     /\ endsWith isBuild (trace (createImageRunCmd env args) fl) = true)
  /\ (forall b,
        TargetBuilderForTargetOrUnittest env (idx args 0) = inr b ->
        Build env b = Some err ->
        existsb isBuild (trace (runRunCmd env args) fl) = true ->
        outcome (runRunCmd env args) fl = Exited false err
        /\ endsWith isBuild (trace (runRunCmd env args) fl) = true).
Proof.
  split.
  - intros t b Ht Hb Hbuild. cmd_unfold.
    destruct args as [|a0 [|a1 [|k0 rest]]]; cmd_cases;
      intros; first [discriminate | split; [congruence | reflexivity] | congruence].
  - intros b Hb Hbuild. cmd_unfold.
    destruct args as [|a0 [|a1 [|k0 rest]]]; cmd_cases;
      intros; first [discriminate | split; [congruence | reflexivity] | congruence].
Qed.

(** X11. In the run command a key file that cannot be loaded ends the
    command with the loader's error after the build, and no image is
    produced, loaded or debugged. *)
Theorem run_key_failure fl args filenames err :
  In (EvReadPrivSignKeys filenames) (trace (runRunCmd env args) fl) ->
  ReadPrivSignKeys env filenames = inl err ->
  outcome (runRunCmd env args) fl = Exited true err
  /\ existsb isBuild (trace (runRunCmd env args) fl) = true
  /\ existsb isProduce (trace (runRunCmd env args) fl) = false
  /\ existsb isLoad (trace (runRunCmd env args) fl) = false
  /\ existsb isDebug (trace (runRunCmd env args) fl) = false.
Proof.
  cmd_unfold.
  destruct args as [|a0 [|a1 [|k0 rest]]]; cmd_cases;
    intros; log_cases; first [congruence | repeat split; congruence].
Qed.

(** X12. A run command that is given a version argument never resolves the
    configuration and never prompts; the only string it ever hands to the
    version parser is that argument. *)
Theorem run_version_argument fl args :
  (2 <= length args)%nat ->
  existsb isResolve (trace (runRunCmd env args) fl) = false
  /\ existsb isPrompt (trace (runRunCmd env args) fl) = false
  /\ (forall versStr,
        In (EvParseVersion versStr) (trace (runRunCmd env args) fl) ->
        versStr = idx args 1).
Proof.
  intros Hlen.
  destruct args as [|a0 [|a1 rest]]; [cbn in Hlen; lia..|]. clear Hlen.
  cmd_unfold.
  destruct rest as [|k0 rest]; cmd_cases;
    (split; [reflexivity|]; split; [reflexivity|]);
    intros; log_cases; reflexivity.
Qed.

(** X13. On a unit-test target the run command injects the assert setting,
    makes the self-test executable and, if that succeeded, debugs it;
    nothing is built, versioned, produced or loaded, and the arguments
    after the target are not looked at. *)
Theorem run_unit_test fl args b pkg :
  (1 <= length args)%nat ->
  useV1 fl && useV2 fl = false ->
  TryGetProject env = None ->
  TargetBuilderForTargetOrUnittest env (idx args 0) = inr b ->
  GetTestPkg env b = Some pkg ->
  trace (runRunCmd env args) fl =
    [EvTryGetProject; EvTargetBuilderForTargetOrUnittest (idx args 0);
     EvInjectSetting "TESTUTIL_SYSTEM_ASSERT" "1"; EvSelfTestCreateExe]
    ++ match SelfTestCreateExe env b with
       | Some _ => []
       | None => [EvSelfTestDebug]
       end
  /\ outcome (runRunCmd env args) fl =
     match SelfTestCreateExe env b with
     | Some e => Exited false e
     | None =>
         match SelfTestDebug env b with
         | Some e => Exited false e
         | None => Done tt
         end
     end.
Proof.
  intros Hlen Hfl Hproj Hb Hpkg.
  destruct args as [|a0 rest]; [cbn in Hlen; lia|]. clear Hlen.
  cbn [idx nth] in *. cmd_unfold.
  repeat (cbn; rewrite ?Hfl, ?Hproj, ?Hb, ?Hpkg).
  destruct (useV1 fl); repeat (cbn; rewrite ?Hfl, ?Hproj, ?Hb, ?Hpkg);
    destruct (SelfTestCreateExe env b); cbn; try (split; reflexivity);
    destruct (SelfTestDebug env b); split; reflexivity.
Qed.

End More2.

Section More3.

Context {Target Builder LocalPackage PrivSignKey : Type}.
Variable env : Env Target Builder LocalPackage PrivSignKey.

(** X14. Which producer is called depends on [useV1] alone: without it
    the legacy producer is never called, with it the current one is never
    called, in either command. *)
Theorem format_selects_producer fl args :
  (useV1 fl = false ->
   existsb isProduceAllV1 (trace (createImageRunCmd env args) fl) = false
   /\ existsb isProduceAllV1 (trace (runRunCmd env args) fl) = false)
  /\ (useV1 fl = true ->
      existsb isProduceAll (trace (createImageRunCmd env args) fl) = false
      /\ existsb isProduceAll (trace (runRunCmd env args) fl) = false).
Proof.
  split; intros HV1; split; cmd_unfold;
    destruct args as [|a0 [|a1 [|k0 rest]]]; cmd_cases;
    first [reflexivity | congruence].
Qed.

(** X15. The only package variable either command ever writes is [useV2],
    which it sets; and once a command has got past its flag check, exactly
    one of the two format variables is set. *)
Theorem format_flags_after_check fl args :
  let after1 := flags (snd (exec (createImageRunCmd env args) fl)) in
  let after2 := flags (snd (exec (runRunCmd env args) fl)) in
  (after1 = fl \/ after1 = set_useV2 true fl)
  /\ (trace (createImageRunCmd env args) fl <> [] ->
      xorb (useV1 after1) (useV2 after1) = true)
  /\ (after2 = fl \/ after2 = set_useV2 true fl)
  /\ (trace (runRunCmd env args) fl <> [] ->
      xorb (useV1 after2) (useV2 after2) = true).
Proof.
  cbv zeta. cmd_unfold.
  split; [|split; [|split]];
    destruct args as [|a0 [|a1 [|k0 rest]]]; cmd_cases;
    first [ now left | now right
          | intros; first
              [ congruence
              | destruct (useV1 fl), (useV2 fl); cbn in *; congruence ] ].
Qed.

(** X16. Without arguments after the version no key file is read, and the
    image producer, if called, is given no keys. *)
Theorem no_key_arguments_unsigned fl args e keys :
  (length args <= 2)%nat ->
  (existsb isKeyRead (trace (createImageRunCmd env args) fl) = false
   /\ (In e (trace (createImageRunCmd env args) fl) ->
       producerKeys e = Some keys -> keys = []))
  /\ (existsb isKeyRead (trace (runRunCmd env args) fl) = false
      /\ (In e (trace (runRunCmd env args) fl) ->
          producerKeys e = Some keys -> keys = [])).
Proof.
  intros Hlen.
  destruct args as [|a0 [|a1 [|k0 rest]]]; [| | |cbn in Hlen; lia]; clear Hlen;
    cmd_unfold; (split; split);
    cmd_cases; first [reflexivity | intros; log_cases; cbn in *; congruence].
Qed.

(** X17. With a version argument other than [timestamp] the image command
    never reads the modification time, parses that argument before the
    builder is made, and only ever produces an image with the version the
    parser returned. *)
Theorem createImage_explicit_version fl args e :
  idx args 1 <> "timestamp" ->
  existsb isStat (trace (createImageRunCmd env args) fl) = false
  /\ onlyAfter isParseVersion isNewTargetBuilder
       (trace (createImageRunCmd env args) fl) = true
  /\ (In e (trace (createImageRunCmd env args) fl) ->
      isProduce e = true ->
      exists ver keys,
        ParseVersion env (idx args 1) = inr ver
        /\ e = produceCall fl ver keys (owSrcFilename fl)).
Proof.
  intros Hne. unfold produceCall. cmd_unfold.
  destruct args as [|a0 [|a1 [|k0 rest]]]; cbn [idx nth] in *; cmd_cases;
    try (exfalso; apply Hne; apply String.eqb_eq; assumption);
    (split; [reflexivity|]; split; [reflexivity|]);
    intros; log_cases; try discriminate;
    do 2 eexists; split; reflexivity.
Qed.

(** X18. When the image producer refuses, either command ends with the
    producer's error, without usage text; the run command then neither
    loads nor debugs. *)
Theorem producer_failure_aborts fl args ver keys err :
  (forall t b,
     ResolveTarget env (idx args 0) = Some t ->
     NewTargetBuilder env t = inr b ->
     In (produceCall fl ver keys (owSrcFilename fl))
        (trace (createImageRunCmd env args) fl) ->
     produceAnswer env fl b ver keys (owSrcFilename fl) = Some err ->
     outcome (createImageRunCmd env args) fl = Exited false err)
  /\ (forall b,
        TargetBuilderForTargetOrUnittest env (idx args 0) = inr b ->
        In (produceCall fl ver keys "") (trace (runRunCmd env args) fl) ->
        produceAnswer env fl b ver keys "" = Some err ->
        outcome (runRunCmd env args) fl = Exited false err
        /\ existsb isLoad (trace (runRunCmd env args) fl) = false
        /\ existsb isDebug (trace (runRunCmd env args) fl) = false).
Proof.
  unfold produceCall, produceAnswer. split.
  - intros t b Ht Hb. cmd_unfold.
    destruct args as [|a0 [|a1 [|k0 rest]]]; cmd_cases;
      intros; log_cases; try discriminate; congruence.
  - intros b Hb. cmd_unfold.
    destruct args as [|a0 [|a1 [|k0 rest]]]; cmd_cases;
      intros; log_cases; try discriminate;
      first [congruence | repeat split; congruence].
Qed.

End More3.

Section More4.

Context {Target Builder LocalPackage PrivSignKey : Type}.
Variable env : Env Target Builder LocalPackage PrivSignKey.

(** X25. When the run command prompts and a word is read from the console,
    that word is the version string: after a successful build it is what
    the version parser is given. *)
Theorem run_prompted_version fl t b settings word :
  useV1 fl && useV2 fl = false ->
  TryGetProject env = None ->
  TargetBuilderForTargetOrUnittest env t = inr b ->
  GetTestPkg env b = None ->
  Resolve env b = inr settings ->
  ValueIsTrue env (default "" (settings !! "BOOT_LOADER")) = false ->
  ValueIsTrue env (default "" (settings !! "BSP_SIMULATED")) = false ->
  Scanf env = Some word ->
  word <> "" ->
  Build env b = None ->
  resolvedVerStr env fl [t] = Some word
  /\ In (EvPrintln "Enter image version(default 0):")
        (trace (runRunCmd env [t]) fl)
  /\ In (EvParseVersion word) (trace (runRunCmd env [t]) fl).
Proof.
  intros Hfl Hproj Hb Htest Hres Hboot Hsim Hscan Hword Hbuild.
  assert (Hlen : (0 <? String.length word)%nat = true).
  { destruct word; [contradiction|reflexivity]. }
  cmd_unfold.
  repeat (cbn -[lookup default String.length];
          rewrite ?Hfl, ?Hproj, ?Hb, ?Htest, ?Hres, ?Hboot, ?Hsim, ?Hscan,
            ?Hbuild).
  change (default "0" (Some word)) with word.
  split; [reflexivity|].
  destruct (useV1 fl);
    repeat (cbn -[lookup default String.length Nat.ltb];
            rewrite ?Hfl, ?Hproj, ?Hb, ?Htest, ?Hres, ?Hboot, ?Hsim, ?Hscan,
              ?Hbuild, ?Hlen);
    change (default "0" (Some word)) with word;
    rewrite ?Hlen;
    (split; [cmd_cases; try discriminate;
             repeat (first [left; reflexivity | right])|]);
    cmd_cases; try discriminate; repeat (first [left; reflexivity | right]).
Qed.

End More4.


(** ** More on the version derived from a timestamp *)

(** The derived version on a calendar moment, conversions resolved. *)
Lemma timestampVersion_calendar mt :
  1 <= Month mt <= 12 ->
  1 <= Day mt <= 31 ->
  0 <= Hour mt <= 23 ->
  0 <= Minute mt <= 59 ->
  0 <= Second mt <= 59 ->
  timestampVersion mt =
  {| Major := Z.rem (Year mt) 1000 mod 2 ^ 8;
     Minor := Month mt;
     Rev := Day mt;
     BuildNum := Hour mt * 10000 + Minute mt * 100 + Second mt |}.
Proof.
  intros Hmo Hd Hh Hmi Hs.
  unfold timestampVersion, uint8, uint16, uint32.
  rewrite (Z.mod_small (Month mt)) by lia.
  rewrite (Z.mod_small (Day mt)) by lia.
  rewrite (Z.mod_small (Hour mt * 10000 + Minute mt * 100 + Second mt)) by lia.
  reflexivity.
Qed.

(** X19. Whatever the time read, the derived fields fit the widths of the
    version record: 8, 8, 16 and 32 bits. *)
Theorem timestamp_version_in_range mt :
  0 <= Major (timestampVersion mt) <= 255
  /\ 0 <= Minor (timestampVersion mt) <= 255
  /\ 0 <= Rev (timestampVersion mt) <= 65535
  /\ 0 <= BuildNum (timestampVersion mt) <= 4294967295.
Proof.
  unfold timestampVersion, uint8, uint16, uint32. cbn [Major Minor Rev BuildNum].
  pose proof (Z.mod_pos_bound (Z.rem (Year mt) 1000) (2 ^ 8) eq_refl).
  pose proof (Z.mod_pos_bound (Month mt) (2 ^ 8) eq_refl).
  pose proof (Z.mod_pos_bound (Day mt) (2 ^ 16) eq_refl).
  pose proof (Z.mod_pos_bound
                (Hour mt * 10000 + Minute mt * 100 + Second mt) (2 ^ 32) eq_refl).
  change (2 ^ 8) with 256 in *. change (2 ^ 16) with 65536 in *.
  change (2 ^ 32) with 4294967296 in *. lia.
Qed.

(** X20. On a calendar moment the date and the time of day can be read
    back from the derived version: month and day are Minor and Rev, and
    BuildNum splits into hour, minute and second by decimal digits. *)
Theorem timestamp_version_decodes mt :
  1 <= Month mt <= 12 ->
  1 <= Day mt <= 31 ->
  0 <= Hour mt <= 23 ->
  0 <= Minute mt <= 59 ->
  0 <= Second mt <= 59 ->
  let v := timestampVersion mt in
  Month mt = Minor v
  /\ Day mt = Rev v
  /\ Hour mt = BuildNum v / 10000
  /\ Minute mt = (BuildNum v / 100) mod 100
  /\ Second mt = BuildNum v mod 100.
Proof.
  intros Hmo Hd Hh Hmi Hs. cbv zeta.
  rewrite (timestampVersion_calendar mt) by assumption.
  cbn [Major Minor Rev BuildNum].
  split; [reflexivity|]. split; [reflexivity|].
  split; [|split].
  - apply (Z.div_unique _ _ _ (Minute mt * 100 + Second mt)); lia.
  - replace ((Hour mt * 10000 + Minute mt * 100 + Second mt) / 100)
      with (Hour mt * 100 + Minute mt)
      by (apply (Z.div_unique _ _ _ (Second mt)); lia).
    apply (Z.mod_unique _ _ (Hour mt)); lia.
  - apply (Z.mod_unique _ _ (Hour mt * 100 + Minute mt)); lia.
Qed.

(** X21. Two calendar moments of the same millennium whose year ends in
    000..255 get different versions unless they are the same moment. *)
Theorem timestamp_version_injective mt1 mt2 :
  0 <= Year mt1 -> 0 <= Year mt2 ->
  Year mt1 / 1000 = Year mt2 / 1000 ->
  Year mt1 mod 1000 <= 255 -> Year mt2 mod 1000 <= 255 ->
  1 <= Month mt1 <= 12 -> 1 <= Month mt2 <= 12 ->
  1 <= Day mt1 <= 31 -> 1 <= Day mt2 <= 31 ->
  0 <= Hour mt1 <= 23 -> 0 <= Hour mt2 <= 23 ->
  0 <= Minute mt1 <= 59 -> 0 <= Minute mt2 <= 59 ->
  0 <= Second mt1 <= 59 -> 0 <= Second mt2 <= 59 ->
  timestampVersion mt1 = timestampVersion mt2 ->
  mt1 = mt2.
Proof.
  intros Hy1 Hy2 Hq Hr1 Hr2 Hmo1 Hmo2 Hd1 Hd2 Hh1 Hh2 Hmi1 Hmi2 Hs1 Hs2 Heq.
  rewrite (timestampVersion_calendar mt1), (timestampVersion_calendar mt2)
    in Heq by assumption.
  injection Heq as HM Hmo Hd Hb.
  rewrite !Z.rem_mod_nonneg in HM by lia.
  pose proof (Z.mod_pos_bound (Year mt1) 1000 eq_refl).
  pose proof (Z.mod_pos_bound (Year mt2) 1000 eq_refl).
  change (2 ^ 8) with 256 in HM.
  rewrite (Z.mod_small (Year mt1 mod 1000)) in HM by lia.
  rewrite (Z.mod_small (Year mt2 mod 1000)) in HM by lia.
  assert (HY : Year mt1 = Year mt2).
  { pose proof (Z.div_mod (Year mt1) 1000).
    pose proof (Z.div_mod (Year mt2) 1000). lia. }
  assert (Hour mt1 = Hour mt2) by lia.
  assert (Minute mt1 = Minute mt2) by lia.
  assert (Second mt1 = Second mt2) by lia.
  destruct mt1, mt2; cbn in *. congruence.
Qed.

(** X22. The derived version does not tell years apart that lie 1000
    years apart, nor years of one millennium that lie 256 years apart. *)
Theorem timestamp_version_year_wrap y mo d h mi s :
  0 <= y ->
  timestampVersion (mkModTime (y + 1000) mo d h mi s)
    = timestampVersion (mkModTime y mo d h mi s)
  /\ (y mod 1000 < 744 ->
      timestampVersion (mkModTime (y + 256) mo d h mi s)
        = timestampVersion (mkModTime y mo d h mi s)).
Proof.
  intros Hy. unfold timestampVersion, uint8. cbn [Year Month Day Hour Minute Second].
  rewrite !Z.rem_mod_nonneg by lia.
  split.
  - replace ((y + 1000) mod 1000) with (y mod 1000); [reflexivity|].
    replace (y + 1000) with (y + 1 * 1000) by lia.
    symmetry. apply Z.mod_add. lia.
  - intros Hlt.
    pose proof (Z.mod_pos_bound y 1000 eq_refl).
    replace ((y + 256) mod 1000) with (y mod 1000 + 256).
    + replace ((y mod 1000 + 256) mod 2 ^ 8) with ((y mod 1000) mod 2 ^ 8);
        [reflexivity|].
      change (2 ^ 8) with 256.
      replace (y mod 1000 + 256) with (y mod 1000 + 1 * 256) by lia.
      symmetry. apply Z.mod_add. lia.
    + apply (Z.mod_unique _ _ (y / 1000)); [lia|].
      pose proof (Z.div_mod y 1000). lia.
Qed.

(** ** Flag registration *)

(** X23. Neither command registers a long name or a shorthand twice; a
    long name registered by both commands is bound to the same variable
    with the same shorthand and default in both. *)
Theorem flag_registration_consistent :
  List.NoDup (map flagName createImageFlags)
  /\ List.NoDup (shorthands createImageFlags)
  /\ List.NoDup (map flagName runFlags)
  /\ List.NoDup (shorthands runFlags)
  /\ (forall name f g,
        findFlag name createImageFlags = Some f ->
        findFlag name runFlags = Some g ->
        f = g).
Proof.
  assert (Hfresh : forall (x : string) (l : list string),
            forallb (fun y => negb (String.eqb x y)) l = true -> ~ In x l).
  { intros x l; induction l as [|y l IH]; cbn; [tauto|].
    intros Hall [->|Hin].
    - rewrite String.eqb_refl in Hall. discriminate.
    - apply andb_prop in Hall as [_ Hall]. exact (IH Hall Hin). }
  repeat apply conj.
  1-4: cbn; repeat (constructor; [apply Hfresh; reflexivity|]);
       constructor.
  intros name f g. unfold findFlag, createImageFlags, runFlags.
  cbn -[String.eqb].
  repeat match goal with
    | |- context [String.eqb ?s name] =>
        destruct (String.eqb_spec s name) as [<-|?]; cbn -[String.eqb]
    end; cbn; congruence.
Qed.

(** ** Runs of the further properties on the sample environments *)

Lemma parseKeyArgs_short_witness :
  exec (parseKeyArgs Sample.env ["k.pem"]) Sample.legacy =
  (Done (["k.pem"], 0, None),
   {| flags := Sample.legacy; log := [EvReadPrivSignKeys ["k.pem"]] |}).
Proof.
  apply (parseKeyArgs_short Sample.env ["k.pem"]
           {| flags := Sample.legacy; log := [] |}).
  cbn. lia.
Defined.

Lemma too_few_arguments_witness :
  exec (createImageRunCmd Sample.env ["t1"]) Sample.both =
  (Exited true (NewNewtError "Must specify target and version"),
   {| flags := Sample.both; log := [] |}).
Proof.
  apply (proj1 (too_few_arguments Sample.env Sample.both ["t1"])).
  cbn. lia.
Defined.

Lemma createImage_unknown_target_witness :
  outcome (createImageRunCmd Sample.env ["nosuch"; "1.0"]) Sample.defaults
    = Exited true (NewNewtError "Invalid target name: nosuch")
  /\ trace (createImageRunCmd Sample.env ["nosuch"; "1.0"]) Sample.defaults
    = [EvTryGetProject; EvResolveTarget "nosuch"].
Proof.
  apply (createImage_unknown_target Sample.env Sample.defaults
           ["nosuch"; "1.0"]); [cbn; lia | reflexivity ..].
Defined.

Lemma createImage_success_witness :
  endsWith isProduce
    (trace (createImageRunCmd Sample.env ["t1"; "1.3.0.3"; "k.pem"])
       Sample.defaults) = true
  /\ length (List.filter isProduce
       (trace (createImageRunCmd Sample.env ["t1"; "1.3.0.3"; "k.pem"])
          Sample.defaults)) = 1%nat
  /\ existsb isBuild
       (trace (createImageRunCmd Sample.env ["t1"; "1.3.0.3"; "k.pem"])
          Sample.defaults) = true.
Proof.
  apply (createImage_success Sample.env Sample.defaults
           ["t1"; "1.3.0.3"; "k.pem"]).
  vm_compute. reflexivity.
Defined.

Lemma run_success_witness :
  let tr := trace (runRunCmd Sample.env ["t1"; "1.3.0.3"]) Sample.defaults in
  (endsWith isDebug tr && existsb isLoad tr && existsb isBuild tr)
  || (endsWith isSelfTestDebug tr && existsb isSelfTestCreateExe tr
      && negb (existsb isBuild tr)) = true.
Proof.
  apply (run_success Sample.env Sample.defaults ["t1"; "1.3.0.3"]).
  vm_compute. reflexivity.
Defined.

Lemma createImage_usage_exit_before_build_witness :
  existsb isBuild
    (trace (createImageRunCmd Sample.env ["t1"; "1.x"]) Sample.defaults)
  = false.
Proof.
  apply (createImage_usage_exit_before_build Sample.env Sample.defaults
           ["t1"; "1.x"] (NewNewtError "invalid version string 1.x")).
  vm_compute. reflexivity.
Defined.

Lemma build_failure_aborts_witness :
  outcome (runRunCmd (Scenario.env (Scenario.failed "link failed") None None None)
             ["t1"; "1.0"; "k.pem"]) Sample.defaults
    = Exited false (NewNewtError "link failed")
  /\ endsWith isBuild
       (trace (runRunCmd
                 (Scenario.env (Scenario.failed "link failed") None None None)
                 ["t1"; "1.0"; "k.pem"]) Sample.defaults) = true.
Proof.
  apply (proj2 (build_failure_aborts
                  (Scenario.env (Scenario.failed "link failed") None None None)
                  Sample.defaults ["t1"; "1.0"; "k.pem"]
                  (NewNewtError "link failed")) "t1");
    vm_compute; reflexivity.
Defined.

Lemma run_key_failure_witness :
  outcome (runRunCmd Sample.env ["t1"; "1.0"; "missing.pem"]) Sample.defaults
    = Exited true (NewNewtError "open missing.pem: no such file or directory")
  /\ existsb isBuild
       (trace (runRunCmd Sample.env ["t1"; "1.0"; "missing.pem"])
          Sample.defaults) = true
  /\ existsb isProduce
       (trace (runRunCmd Sample.env ["t1"; "1.0"; "missing.pem"])
          Sample.defaults) = false
  /\ existsb isLoad
       (trace (runRunCmd Sample.env ["t1"; "1.0"; "missing.pem"])
          Sample.defaults) = false
  /\ existsb isDebug
       (trace (runRunCmd Sample.env ["t1"; "1.0"; "missing.pem"])
          Sample.defaults) = false.
Proof.
  apply (run_key_failure Sample.env Sample.defaults
           ["t1"; "1.0"; "missing.pem"] ["missing.pem"]).
  - vm_compute. do 4 right. left. reflexivity.
  - reflexivity.
Defined.

Lemma run_version_argument_witness :
  existsb isResolve
    (trace (runRunCmd Sample.env ["t1"; "1.0"]) Sample.defaults) = false
  /\ existsb isPrompt
       (trace (runRunCmd Sample.env ["t1"; "1.0"]) Sample.defaults) = false.
Proof.
  pose proof (run_version_argument Sample.env Sample.defaults ["t1"; "1.0"])
    as H.
  split; apply H; cbn; lia.
Defined.

Lemma run_unit_test_witness :
  trace (runRunCmd Sample.env ["unittest"; "1.0"; "missing.pem"])
    Sample.defaults
  = [EvTryGetProject; EvTargetBuilderForTargetOrUnittest "unittest";
     EvInjectSetting "TESTUTIL_SYSTEM_ASSERT" "1"; EvSelfTestCreateExe;
     EvSelfTestDebug]
  /\ outcome (runRunCmd Sample.env ["unittest"; "1.0"; "missing.pem"])
       Sample.defaults = Done tt.
Proof.
  apply (run_unit_test Sample.env Sample.defaults
           ["unittest"; "1.0"; "missing.pem"] "unittest" tt);
    [cbn; lia | reflexivity ..].
Defined.

Lemma format_selects_producer_witness :
  existsb isProduceAllV1
    (trace (createImageRunCmd Sample.env ["t1"; "1.0"]) Sample.defaults)
  = false
  /\ existsb isProduceAllV1
       (trace (runRunCmd Sample.env ["t1"; "1.0"]) Sample.defaults) = false.
Proof.
  apply (proj1 (format_selects_producer Sample.env Sample.defaults
                  ["t1"; "1.0"])).
  reflexivity.
Defined.

Lemma format_flags_after_check_witness :
  xorb (useV1 (flags (snd (exec (createImageRunCmd Sample.env ["t1"; "1.0"])
                             Sample.defaults))))
       (useV2 (flags (snd (exec (createImageRunCmd Sample.env ["t1"; "1.0"])
                             Sample.defaults)))) = true.
Proof.
  apply (proj1 (proj2 (format_flags_after_check Sample.env Sample.defaults
                         ["t1"; "1.0"]))).
  vm_compute. discriminate.
Defined.

Lemma no_key_arguments_unsigned_witness :
  existsb isKeyRead
    (trace (createImageRunCmd Sample.env ["t1"; "1.0"]) Sample.defaults)
  = false.
Proof.
  pose proof (no_key_arguments_unsigned Sample.env Sample.defaults
                ["t1"; "1.0"] EvBuild []) as H.
  apply H. cbn. lia.
Defined.

Lemma createImage_explicit_version_witness :
  existsb isStat
    (trace (createImageRunCmd Sample.env ["t1"; "1.3.0.3"]) Sample.defaults)
  = false.
Proof.
  pose proof (createImage_explicit_version Sample.env Sample.defaults
                ["t1"; "1.3.0.3"] EvBuild) as H.
  apply H. cbn. discriminate.
Defined.

Lemma producer_failure_aborts_witness :
  outcome (runRunCmd
             (Scenario.env None (Scenario.failed "image too large") None None)
             ["t1"; "1.0"]) Sample.defaults
    = Exited false (NewNewtError "image too large")
  /\ existsb isLoad
       (trace (runRunCmd
                 (Scenario.env None (Scenario.failed "image too large") None None)
                 ["t1"; "1.0"]) Sample.defaults) = false
  /\ existsb isDebug
       (trace (runRunCmd
                 (Scenario.env None (Scenario.failed "image too large") None None)
                 ["t1"; "1.0"]) Sample.defaults) = false.
Proof.
  apply (proj2 (producer_failure_aborts
                  (Scenario.env None (Scenario.failed "image too large")
                     None None)
                  Sample.defaults ["t1"; "1.0"] (mkVersion 1 0 0 0) []
                  (NewNewtError "image too large")) "t1").
  - reflexivity.
  - vm_compute. do 4 right. left. reflexivity.
  - reflexivity.
Defined.

Lemma createImage_timestamp_derivation_witness :
  exists target b modTime keys,
    ResolveTarget Sample.env "t1" = Some target
    /\ NewTargetBuilder Sample.env target = inr b
    /\ Build Sample.env b = None
    /\ Stat Sample.env b = inr modTime
    /\ EvProduceAll (mkVersion 24 3 7 140509) ["k.pem"] "" (-1) 0 0 "" false ""
       = produceCall Sample.defaults (timestampVersion modTime) keys
           (owSrcFilename Sample.defaults).
Proof.
  apply (proj2 (createImage_timestamp_derivation Sample.env Sample.defaults
                  "t1" ["k.pem"]
                  (EvProduceAll (mkVersion 24 3 7 140509) ["k.pem"] "" (-1)
                     0 0 "" false ""))).
  - vm_compute. do 6 right. left. reflexivity.
  - reflexivity.
Defined.

Lemma timestamp_version_decodes_witness :
  let v := timestampVersion (mkModTime 2024 3 7 14 5 9) in
  3 = Minor v /\ 7 = Rev v /\ 14 = BuildNum v / 10000
  /\ 5 = (BuildNum v / 100) mod 100 /\ 9 = BuildNum v mod 100.
Proof.
  apply (timestamp_version_decodes (mkModTime 2024 3 7 14 5 9)); cbn; lia.
Defined.

Lemma timestamp_version_injective_witness :
  mkModTime 2024 3 7 14 5 9 = mkModTime 2024 3 7 14 5 9.
Proof.
  apply (timestamp_version_injective (mkModTime 2024 3 7 14 5 9)
           (mkModTime 2024 3 7 14 5 9));
    first [reflexivity | cbn; lia | vm_compute; discriminate].
Defined.

Lemma timestamp_version_year_wrap_witness :
  timestampVersion (mkModTime 3024 3 7 14 5 9)
    = timestampVersion (mkModTime 2024 3 7 14 5 9)
  /\ timestampVersion (mkModTime 2280 3 7 14 5 9)
    = timestampVersion (mkModTime 2024 3 7 14 5 9).
Proof.
  split.
  - apply (proj1 (timestamp_version_year_wrap 2024 3 7 14 5 9 ltac:(lia))).
  - apply (proj2 (timestamp_version_year_wrap 2024 3 7 14 5 9 ltac:(lia))).
    vm_compute. reflexivity.
Defined.

Lemma flag_registration_consistent_witness :
  mkFlag "encKeyIndex" "hw-stored-key" "H" (IntFlag (-1))
  = mkFlag "encKeyIndex" "hw-stored-key" "H" (IntFlag (-1)).
Proof.
  apply (proj2 (proj2 (proj2 (proj2 flag_registration_consistent)))
           "hw-stored-key"); reflexivity.
Defined.

Lemma run_prompted_version_witness :
  resolvedVerStr (Scenario.env None None None (Some "2.1")) Sample.defaults
    ["t1"] = Some "2.1"
  /\ In (EvPrintln "Enter image version(default 0):")
        (trace (runRunCmd (Scenario.env None None None (Some "2.1")) ["t1"])
           Sample.defaults)
  /\ In (EvParseVersion "2.1")
        (trace (runRunCmd (Scenario.env None None None (Some "2.1")) ["t1"])
           Sample.defaults).
Proof.
  apply (run_prompted_version (Scenario.env None None None (Some "2.1"))
           Sample.defaults "t1" "t1" (Sample.settingsOf "t1") "2.1");
    first [reflexivity | discriminate | vm_compute; reflexivity].
Defined.
